(** * The [lmi] meta-command: bootstrap and dispatch layer

    A shallow embedding of [lmi/scripts/_metacommand/__init__.py]
    (Python 2.7): host-list parsing, logging setup, the lazily built
    [CommandManager] and [Session], [setup] and the top-level [run].

    Python objects are modelled by explicit state passing.  A computation
    is a function from the state to an outcome (a value or a raised
    exception) and the state it leaves behind; effects made before an
    exception is raised persist, as they do in Python. *)

From Stdlib Require Import ZArith List String Ascii Bool Lia.
From stdpp Require Import base option list sorting strings pretty gmap.

Open Scope Z_scope.
Open Scope string_scope.

(** ** Python strings *)

Module PyStr.

Definition LF : ascii := "010"%char.
Definition DQUOTE : ascii := "034"%char.

(** [str.isspace] on one byte (C locale): space, TAB, LF, VT, FF, CR. *)
Definition isspace (c : ascii) : bool :=
  let n := nat_of_ascii c in
  (Nat.eqb n 32 || (Nat.leb 9 n && Nat.leb n 13))%bool.

(** [str.lstrip()] *)
Fixpoint lstrip (s : string) : string :=
  match s with
  | EmptyString => EmptyString
  | String c s' => if isspace c then lstrip s' else s
  end.

(** [str.rstrip()] *)
Fixpoint rstrip (s : string) : string :=
  match s with
  | EmptyString => EmptyString
  | String c s' =>
      match rstrip s' with
      | EmptyString => if isspace c then EmptyString else String c EmptyString
      | r => String c r
      end
  end.

(** [str.strip()] *)
Definition strip (s : string) : string := rstrip (lstrip s).

(** [str.upper()] on ASCII letters. *)
Definition upper_char (c : ascii) : ascii :=
  let n := nat_of_ascii c in
  if (Nat.leb 97 n && Nat.leb n 122)%bool then ascii_of_nat (n - 32) else c.

Fixpoint upper (s : string) : string :=
  match s with
  | EmptyString => EmptyString
  | String c s' => String (upper_char c) (upper s')
  end.

(** Every character of the string is whitespace. *)
Fixpoint all_space (s : string) : bool :=
  match s with
  | EmptyString => true
  | String c s' => (isspace c && all_space s')%bool
  end.

Definition first_char (s : string) : option ascii :=
  match s with
  | EmptyString => None
  | String c _ => Some c
  end.

Fixpoint last_char (s : string) : option ascii :=
  match s with
  | EmptyString => None
  | String c EmptyString => Some c
  | String _ s' => last_char s'
  end.

(** The string neither starts nor ends with a whitespace character. *)
Definition trimmed (s : string) : Prop :=
  (forall c, first_char s = Some c -> isspace c = false) /\
  (forall c, last_char s = Some c -> isspace c = false).

(** Splitting file data into lines the way [file.readlines()] returns
    them: every line keeps its terminating LF, the last line may lack
    one, and empty data has no line. *)
Fixpoint splitlines_keepends (s : string) : list string :=
  match s with
  | EmptyString => []
  | String c s' =>
      if Ascii.eqb c LF then String c EmptyString :: splitlines_keepends s'
      else match splitlines_keepends s' with
           | [] => [String c EmptyString]
           | l :: ls => String c l :: ls
           end
  end.

(** A line as [readlines] returns it: not empty, with no LF before its
    last character. *)
Fixpoint is_line (s : string) : bool :=
  match s with
  | EmptyString => false
  | String c EmptyString => true
  | String c s' => (negb (Ascii.eqb c LF) && is_line s')%bool
  end.

End PyStr.

(** ** Python values *)

(** A file object opened for reading, positioned at its start. *)
Record file := File { f_name : string; f_data : string }.

(** The values that occur in a docopt dictionary (None, booleans, counts,
    strings, lists of strings), and file objects. *)
Inductive value :=
| VNone
| VBool (b : bool)
| VInt (n : Z)
| VStr (s : string)
| VList (l : list string)
| VFile (f : file).

(** Exceptions.  [SystemExit] and [KeyboardInterrupt] derive from
    [BaseException] only; all the others derive from [Exception].
    [LmiError] is [lmi.scripts.common.errors.LmiError]. *)
Inductive exn :=
| KeyError (key : string)
| TypeError (msg : string)
| AttributeError (msg : string)
| ValueError (msg : string)
| IOError (msg : string)
| OSError (msg : string)
| LmiError (msg : string)
| OtherException (cls msg : string)
| SystemExit (code : Z)
| KeyboardInterrupt.

Inductive result (A : Type) :=
| Ok (a : A)
| Raise (e : exn).
Arguments Ok {A} a.
Arguments Raise {A} e.

Module Py.

(** Truth value testing. *)
Definition truthy (v : value) : bool :=
  match v with
  | VNone => false
  | VBool b => b
  | VInt n => negb (Z.eqb n 0)
  | VStr s => negb (String.eqb s EmptyString)
  | VList l => match l with [] => false | _ => true end
  | VFile _ => true
  end.

(** [v > 0] in Python 2: [None] is smaller than every number, numbers
    compare by value ([True] is 1), and an object of any other type is
    larger than every number. *)
Definition gt0 (v : value) : bool :=
  match v with
  | VNone => false
  | VBool b => b
  | VInt n => Z.ltb 0 n
  | VStr _ | VList _ | VFile _ => true
  end.

Definition type_name (v : value) : string :=
  match v with
  | VNone => "NoneType"
  | VBool _ => "bool"
  | VInt _ => "int"
  | VStr _ => "str"
  | VList _ => "list"
  | VFile _ => "file"
  end.

Definition no_attribute (v : value) (attr : string) : exn :=
  AttributeError ("'" ++ type_name v ++ "' object has no attribute '" ++ attr ++ "'").

(** [isinstance(e, Exception)] *)
Definition is_Exception (e : exn) : bool :=
  match e with
  | SystemExit _ | KeyboardInterrupt => false
  | _ => true
  end.

(** [isinstance(e, errors.LmiError)] *)
Definition is_LmiError (e : exn) : bool :=
  match e with
  | LmiError _ => true
  | _ => false
  end.

(** [isinstance(e, (OSError, IOError))] *)
Definition is_OSError_or_IOError (e : exn) : bool :=
  match e with
  | OSError _ | IOError _ => true
  | _ => false
  end.

(** [str(e)], for the exceptions the program renders (those deriving
    from [Exception]). *)
Definition exn_str (e : exn) : string :=
  match e with
  | KeyError k => "'" ++ k ++ "'"
  | TypeError m | AttributeError m | ValueError m | IOError m | OSError m
  | LmiError m | OtherException _ m => m
  | SystemExit _ | KeyboardInterrupt => EmptyString
  end.

(** [obj.readlines()]: only file objects have the method. *)
Definition readlines (obj : value) : result (list string) :=
  match obj with
  | VFile f => Ok (PyStr.splitlines_keepends (f_data f))
  | _ => Raise (no_attribute obj "readlines")
  end.

(** [repr(s)] of a string without quotes or escapes in it. *)
Definition repr_str (s : string) : string := "'" ++ s ++ "'".

(** ["%s" % v] *)
Definition str (v : value) : string :=
  match v with
  | VNone => "None"
  | VBool b => if b then "True" else "False"
  | VInt n => pretty n
  | VStr s => s
  | VList l => "[" ++ String.concat ", " (map repr_str l) ++ "]"
  | VFile f => "<open file " ++ repr_str (f_name f) ++ ", mode 'rt'>"
  end.

(** The items [list.extend(obj)] appends: the elements of a list, the
    characters of a string, the lines of a file; other values are not
    iterable. *)
Definition iter (obj : value) : result (list string) :=
  match obj with
  | VList l => Ok l
  | VStr s => Ok (map (fun c => String c EmptyString) (list_ascii_of_string s))
  | VFile f => Ok (PyStr.splitlines_keepends (f_data f))
  | _ => Raise (TypeError ("'" ++ type_name obj ++ "' object is not iterable"))
  end.

End Py.

(** ** [parse_hosts_file] *)

(** The body of the [for] loop: [hostname = line.strip(); res.append(hostname)]. *)
Definition parse_hosts_step (res : list string) (line : string) : list string :=
  res ++ [PyStr.strip line].

Definition parse_hosts_file (hosts_file : value) : result (list string) :=
  match Py.readlines hosts_file with
  | Ok lines => Ok (fold_left parse_hosts_step lines [])
  | Raise e => Raise e
  end.

(** ** The [logging] module *)

Module logging.

Definition CRITICAL : Z := 50.
Definition FATAL : Z := CRITICAL.
Definition ERROR : Z := 40.
Definition WARNING : Z := 30.
Definition WARN : Z := WARNING.
Definition INFO : Z := 20.
Definition DEBUG : Z := 10.
Definition NOTSET : Z := 0.
Definition BASIC_FORMAT : string := "%(levelname)s:%(name)s:%(message)s".

(** What [getattr(logging, NAME)] can return for an upper-case name: one
    of the integer level constants or the string [BASIC_FORMAT]. *)
Inductive level_obj :=
| LInt (n : Z)
| LStr (s : string).

(** [getattr(logging, name)] for a name that went through [str.upper()]:
    the module's upper-case attributes; any other name raises
    [AttributeError]. *)
Definition getattr (name : string) : result level_obj :=
  if String.eqb name "CRITICAL" then Ok (LInt CRITICAL)
  else if String.eqb name "FATAL" then Ok (LInt FATAL)
  else if String.eqb name "ERROR" then Ok (LInt ERROR)
  else if String.eqb name "WARNING" then Ok (LInt WARNING)
  else if String.eqb name "WARN" then Ok (LInt WARN)
  else if String.eqb name "INFO" then Ok (LInt INFO)
  else if String.eqb name "DEBUG" then Ok (LInt DEBUG)
  else if String.eqb name "NOTSET" then Ok (LInt NOTSET)
  else if String.eqb name "BASIC_FORMAT" then Ok (LStr BASIC_FORMAT)
  else Raise (AttributeError ("'module' object has no attribute '" ++ name ++ "'")).

(** The name-to-number half of [logging._levelNames]. *)
Definition _levelNames (name : string) : option Z :=
  if String.eqb name "CRITICAL" then Some CRITICAL
  else if String.eqb name "ERROR" then Some ERROR
  else if String.eqb name "WARN" then Some WARNING
  else if String.eqb name "WARNING" then Some WARNING
  else if String.eqb name "INFO" then Some INFO
  else if String.eqb name "DEBUG" then Some DEBUG
  else if String.eqb name "NOTSET" then Some NOTSET
  else None.

(** [logging._checkLevel], called by [Handler.setLevel] and
    [Logger.setLevel]. *)
Definition _checkLevel (l : level_obj) : result Z :=
  match l with
  | LInt n => Ok n
  | LStr s =>
      match _levelNames s with
      | Some n => Ok n
      | None => Raise (ValueError ("Unknown level: '" ++ s ++ "'"))
      end
  end.

(** [a < b] in Python 2: every integer is smaller than every string. *)
Definition lt (a b : level_obj) : bool :=
  match a, b with
  | LInt x, LInt y => Z.ltb x y
  | LInt _, LStr _ => true
  | LStr _, LInt _ => false
  | LStr s, LStr t => String.ltb s t
  end.

(** The builtin [min(a, b)]: the first of the smallest arguments. *)
Definition min (a b : level_obj) : level_obj := if lt b a then b else a.

(** The standard streams, and the [NullFile] mock that replaces
    [stdout] in silent mode. *)
Inductive stream :=
| sys_stdin
| sys_stdout
| sys_stderr
| NullFile.

(** [FileHandler] is a subclass of [StreamHandler]. *)
Inductive handler_class :=
| NullHandler
| StreamHandler (s : stream)
| FileHandler (filename : string).

(** [logging.Formatter(fmt)]; [fmt] may be [None]. *)
Record Formatter := { fmt : option string }.

Record Handler := {
  h_class : handler_class;
  h_level : Z;
  h_formatter : option Formatter;
}.

Definition new_Handler (c : handler_class) : Handler :=
  {| h_class := c; h_level := NOTSET; h_formatter := None |}.

Definition setFormatter (f : Formatter) (h : Handler) : Handler :=
  {| h_class := h_class h; h_level := h_level h; h_formatter := Some f |}.

Definition with_level (n : Z) (h : Handler) : Handler :=
  {| h_class := h_class h; h_level := n; h_formatter := h_formatter h |}.

(** [isinstance(h, logging.NullHandler)] *)
Definition is_NullHandler (h : Handler) : bool :=
  match h_class h with
  | NullHandler => true
  | _ => false
  end.

(** [isinstance(h, logging.FileHandler)] *)
Definition is_FileHandler (h : Handler) : bool :=
  match h_class h with
  | FileHandler _ => true
  | _ => false
  end.

Record Logger := {
  handlers : list Handler;
  level : Z;
}.

#[global] Instance stream_eq_dec : EqDecision stream.
Proof. solve_decision. Defined.
#[global] Instance handler_class_eq_dec : EqDecision handler_class.
Proof. solve_decision. Defined.
#[global] Instance Formatter_eq_dec : EqDecision Formatter.
Proof. solve_decision. Defined.
#[global] Instance Handler_eq_dec : EqDecision Handler.
Proof. solve_decision. Defined.

(** [list.remove(x)] guarded by [x in list], as [Logger.removeHandler]
    does it: the first element equal to [x] goes, if there is one. *)
Fixpoint list_remove (x : Handler) (l : list Handler) : list Handler :=
  match l with
  | [] => []
  | y :: l' => if decide (y = x) then l' else y :: list_remove x l'
  end.

(** [Logger.addHandler] of a handler that was just created (so it is not
    in the list yet). *)
Definition addHandler (h : Handler) (lg : Logger) : Logger :=
  {| handlers := handlers lg ++ [h]; level := level lg |}.

Definition removeHandler (h : Handler) (lg : Logger) : Logger :=
  {| handlers := list_remove h (handlers lg); level := level lg |}.

Definition setLevel (n : Z) (lg : Logger) : Logger :=
  {| handlers := handlers lg; level := n |}.

Arguments getattr : simpl never.
Arguments _levelNames : simpl never.
Arguments _checkLevel : simpl never.
Arguments lt : simpl never.
Arguments min : simpl never.

End logging.

(** ** Collaborators defined outside this module *)

(** The [Configuration] object as this module uses it: the attributes it
    assigns ([trace], [verbosity]), the attribute it reads
    ([logging_level]) and the options [get_safe] looks up. *)
Record Configuration := {
  user_config_file_path : option value;
  trace : value;
  verbosity : value;
  logging_level : string;
  items : gmap (string * string) string;
}.

(** [config.get_safe(section, option)]: the option's value, or [None]. *)
Definition get_safe (c : Configuration) (sect opt : string) : option string :=
  items c !! (sect, opt).

Arguments get_safe : simpl never.

Definition set_trace (v : value) (c : Configuration) : Configuration :=
  {| user_config_file_path := user_config_file_path c; trace := v;
     verbosity := verbosity c; logging_level := logging_level c; items := items c |}.

Definition set_verbosity (v : value) (c : Configuration) : Configuration :=
  {| user_config_file_path := user_config_file_path c; trace := trace c;
     verbosity := v; logging_level := logging_level c; items := items c |}.

(** What the program takes from modules that are not part of this source:
    the [OUTPUT_*] constants and the [silent] property of [Configuration],
    its constructor, and the commands a new [CommandManager] already
    knows. *)
Record Externals := {
  OUTPUT_SILENT : Z;
  OUTPUT_WARNING : Z;
  OUTPUT_INFO : Z;
  OUTPUT_DEBUG : Z;
  silent : Configuration -> bool;
  new_Configuration : option value -> Configuration;
  builtin_commands : gmap string string;
}.

(** Modelled from the spec: [CommandManager], the external collaborator
    providing a registry of named subcommands; [cm_id] is the identity of
    the object. *)
Record CommandManager := {
  cm_id : nat;
  commands : gmap string string;
}.

(** Modelled from the spec: [CommandManager.add_command(name, cls)]
    registers the class under the name. *)
Definition add_command (name cls : string) (m : CommandManager) : CommandManager :=
  {| cm_id := cm_id m; commands := <[name := cls]> (commands m) |}.

(** Modelled from the spec: [Session], the external collaborator
    representing the connections to the hosts; only the arguments of its
    constructor are recorded, with the identity of the object. *)
Record Session := {
  s_id : nat;
  s_hosts : list string;
  s_credentials : option (gmap string (value * string));
}.

(** ** Program state *)

(** What the program does to the outside, in the order it does it. *)
Inductive event :=
| EvDocopt (argv : list string)
| EvGetInstance (user_config : option value)
| EvSetTrace (v : value)
| EvSetVerbosity (v : value)
| EvAddHandler (h : logging.Handler)
| EvRemoveHandler (h : logging.Handler)
| EvSetLevel (n : Z)
| EvOpen (path : string)
| EvLog (levelno : Z) (msg : string) (exc_info : option exn)
| EvNewCommandManager (id : nat)
| EvNewSession (id : nat) (hosts : list string)
| EvDelegate (id : nat).

(** A path of the file system: a readable regular file with its data, or
    something whose opening raises the given exception.  A path that is
    not in the map does not exist. *)
Inductive fs_entry :=
| Regular (data : string)
| Denied (e : exn).

(** The state of the process outside the [MetaCommand] instance. *)
Record process := {
  fs : gmap string fs_entry;
  root_logger : logging.Logger;
  Configuration_instance : option Configuration;
  next_id : nat;
  events : list event;
}.

(** The attributes of the [MetaCommand] instance. *)
Record MetaCommand := {
  _command_manager : option CommandManager;
  stdout : logging.stream;
  stderr : logging.stream;
  stdin : logging.stream;
  _session : option Session;
  config : option Configuration;
  _options : option (gmap string value);
}.

Record state := {
  proc : process;
  self : MetaCommand;
}.

Definition with_proc (f : process -> process) (st : state) : state :=
  {| proc := f (proc st); self := self st |}.

Definition with_self (f : MetaCommand -> MetaCommand) (st : state) : state :=
  {| proc := proc st; self := f (self st) |}.

Definition set_root_logger (lg : logging.Logger) (p : process) : process :=
  {| fs := fs p; root_logger := lg; Configuration_instance := Configuration_instance p;
     next_id := next_id p; events := events p |}.

Definition set_Configuration_instance (c : option Configuration) (p : process) : process :=
  {| fs := fs p; root_logger := root_logger p; Configuration_instance := c;
     next_id := next_id p; events := events p |}.

Definition set_next_id (n : nat) (p : process) : process :=
  {| fs := fs p; root_logger := root_logger p; Configuration_instance := Configuration_instance p;
     next_id := n; events := events p |}.

Definition add_event (e : event) (p : process) : process :=
  {| fs := fs p; root_logger := root_logger p; Configuration_instance := Configuration_instance p;
     next_id := next_id p; events := events p ++ [e] |}.

Definition set__command_manager (m : option CommandManager) (a : MetaCommand) : MetaCommand :=
  {| _command_manager := m; stdout := stdout a; stderr := stderr a; stdin := stdin a;
     _session := _session a; config := config a; _options := _options a |}.

Definition set_stdout (s : logging.stream) (a : MetaCommand) : MetaCommand :=
  {| _command_manager := _command_manager a; stdout := s; stderr := stderr a; stdin := stdin a;
     _session := _session a; config := config a; _options := _options a |}.

Definition set__session (s : option Session) (a : MetaCommand) : MetaCommand :=
  {| _command_manager := _command_manager a; stdout := stdout a; stderr := stderr a; stdin := stdin a;
     _session := s; config := config a; _options := _options a |}.

Definition set_config (c : option Configuration) (a : MetaCommand) : MetaCommand :=
  {| _command_manager := _command_manager a; stdout := stdout a; stderr := stderr a; stdin := stdin a;
     _session := _session a; config := c; _options := _options a |}.

Definition set__options (o : option (gmap string value)) (a : MetaCommand) : MetaCommand :=
  {| _command_manager := _command_manager a; stdout := stdout a; stderr := stderr a; stdin := stdin a;
     _session := _session a; config := config a; _options := o |}.

(** The process once the module is imported: the root logger carries the
    [NullHandler] installed at import time and nothing else. *)
Definition imported (files : gmap string fs_entry) : process :=
  {| fs := files;
     root_logger := {| logging.handlers := [logging.new_Handler logging.NullHandler];
                       logging.level := logging.WARNING |};
     Configuration_instance := None;
     next_id := 0%nat;
     events := [] |}.

(** [MetaCommand.__init__]; its call to [LMIUtil.lmi_set_use_exceptions]
    concerns the shell library only. *)
Definition __init__ : MetaCommand :=
  {| _command_manager := None;
     stdout := logging.sys_stdout;
     stderr := logging.sys_stderr;
     stdin := logging.sys_stdin;
     _session := None;
     config := None;
     _options := None |}.

(** ** Computations *)

Definition M (A : Type) : Type := state -> result A * state.

Definition ret {A} (a : A) : M A := fun st => (Ok a, st).

Definition raise {A} (e : exn) : M A := fun st => (Raise e, st).

Definition bind {A B} (m : M A) (k : A -> M B) : M B :=
  fun st =>
    match m st with
    | (Ok a, st') => k a st'
    | (Raise e, st') => (Raise e, st')
    end.

Notation "x <- m ;; k" := (bind m (fun x => k))
  (at level 100, m at next level, right associativity).
Notation "m ;; k" := (bind m (fun _ => k))
  (at level 100, right associativity).

Definition lift {A} (r : result A) : M A := fun st => (r, st).

Definition gets {A} (f : state -> A) : M A := fun st => (Ok (f st), st).

Definition modify (f : state -> state) : M unit := fun st => (Ok tt, f st).

Definition emit (e : event) : M unit := modify (with_proc (add_event e)).

(** [try: m except <classes> as e: handler e] *)
Definition try_except {A} (m : M A) (classes : exn -> bool) (handler : exn -> M A) : M A :=
  fun st =>
    match m st with
    | (Raise e, st') => if classes e then handler e st' else (Raise e, st')
    | r => r
    end.

(** [d[key]] *)
Definition getitem (d : gmap string value) (key : string) : M value :=
  match d !! key with
  | Some v => ret v
  | None => raise (KeyError key)
  end.

(** [del d[key]] *)
Definition delitem (d : gmap string value) (key : string) : M (gmap string value) :=
  match d !! key with
  | Some _ => ret (delete key d)
  | None => raise (KeyError key)
  end.

(** [d.pop(key, default)]: the value and the dictionary left. *)
Definition pop_default (d : gmap string value) (key : string) (default : value)
  : value * gmap string value :=
  match d !! key with
  | Some v => (v, delete key d)
  | None => (default, d)
  end.

(** [LOG().critical(msg)], [LOG().error(msg)] and [LOG().exception(msg)]
    (an error record that carries the exception being handled). *)
Definition LOG_critical (msg : string) : M unit := emit (EvLog logging.CRITICAL msg None).
Definition LOG_error (msg : string) : M unit := emit (EvLog logging.ERROR msg None).
Definition LOG_exception (msg : string) (exc : exn) : M unit :=
  emit (EvLog logging.ERROR msg (Some exc)).

(** [sys.exit(code)] raises [SystemExit]. *)
Definition sys_exit {A} (code : Z) : M A := raise (SystemExit code).

(** [open(path, 'rt')] *)
Definition open_rt (path : value) : M file :=
  match path with
  | VStr p =>
      emit (EvOpen p) ;;
      files <- gets (fun st => fs (proc st)) ;;
      match files !! p with
      | Some (Regular data) => ret (File p data)
      | Some (Denied e) => raise e
      | None => raise (IOError ("[Errno 2] No such file or directory: '" ++ p ++ "'"))
      end
  | _ => raise (TypeError ("coercing to Unicode: need string or buffer, "
                             ++ Py.type_name path ++ " found"))
  end.

(** [next_id] names the next object created; it stands for the identity
    of Python objects. *)
Definition fresh_id : M nat :=
  n <- gets (fun st => next_id (proc st)) ;;
  modify (with_proc (set_next_id (S n))) ;;
  ret n.

(** [self._options[key]]; before [setup] the attribute is [None]. *)
Definition self_options (key : string) : M value :=
  o <- gets (fun st => _options (self st)) ;;
  match o with
  | Some d => getitem d key
  | None => raise (TypeError "'NoneType' object has no attribute '__getitem__'")
  end.

(** [self.config.<attr>]; before [setup] the attribute is [None]. *)
Definition self_config (attr : string) : M Configuration :=
  c <- gets (fun st => config (self st)) ;;
  match c with
  | Some c => ret c
  | None => raise (Py.no_attribute VNone attr)
  end.

(** [self.config.<attr> = ...]: [self.config] is the singleton, so the
    write shows through [Configuration._instance] as well. *)
Definition self_config_update (attr : string) (f : Configuration -> Configuration) : M unit :=
  c <- self_config attr ;;
  modify (with_self (set_config (Some (f c)))) ;;
  modify (with_proc (set_Configuration_instance (Some (f c)))).

(** ['could not read hosts file "%s": %s' % (hosts_file, err)] *)
Definition could_not_read (hosts_file err : string) : string :=
  "could not read hosts file " ++ String PyStr.DQUOTE (hosts_file ++ String PyStr.DQUOTE (": " ++ err)).

(** [{h: (user, '') for h in hosts}] *)
Definition credentials_for (user : value) (hosts : list string) : gmap string (value * string) :=
  fold_left (fun d h => <[h := (user, EmptyString)]> d) hosts ∅.

(** [Session(self, hosts, credentials)] *)
Definition new_Session (hosts : list string) (credentials : option (gmap string (value * string)))
  : M Session :=
  id <- fresh_id ;;
  emit (EvNewSession id hosts) ;;
  ret {| s_id := id; s_hosts := hosts; s_credentials := credentials |}.

(** [logging.FileHandler(filename=...)] opens the file for appending, which
    creates it when it does not exist; the empty name stands for the
    current directory, which cannot be opened. *)
Definition new_FileHandler (filename : string) : M logging.Handler :=
  if String.eqb filename EmptyString then raise (IOError "[Errno 21] Is a directory")
  else
    files <- gets (fun st => fs (proc st)) ;;
    match files !! filename with
    | Some (Denied e) => raise e
    | _ => ret (logging.new_Handler (logging.FileHandler filename))
    end.

Definition root_addHandler (h : logging.Handler) : M unit :=
  emit (EvAddHandler h) ;;
  modify (with_proc (fun p => set_root_logger (logging.addHandler h (root_logger p)) p)).

Definition root_removeHandler (h : logging.Handler) : M unit :=
  emit (EvRemoveHandler h) ;;
  modify (with_proc (fun p => set_root_logger (logging.removeHandler h (root_logger p)) p)).

Definition root_setLevel (l : logging.level_obj) : M unit :=
  n <- lift (logging._checkLevel l) ;;
  emit (EvSetLevel n) ;;
  modify (with_proc (fun p => set_root_logger (logging.setLevel n (root_logger p)) p)).

(** [for x in l: body x] *)
Fixpoint for_each {A} (l : list A) (body : A -> M unit) : M unit :=
  match l with
  | [] => ret tt
  | x :: l' => body x ;; for_each l' body
  end.

(** [d.get(key, default)] on a dictionary with integer keys: [True] and
    [False] hash and compare as 1 and 0, a list is unhashable, any other
    value is not a key. *)
Definition dict_get (d : gmap Z Z) (key : value) (default : logging.level_obj)
  : result logging.level_obj :=
  let at_int n := match d !! n with
                  | Some l => logging.LInt l
                  | None => default
                  end in
  match key with
  | VInt n => Ok (at_int n)
  | VBool b => Ok (at_int (if b then 1 else 0))
  | VList _ => Raise (TypeError "unhashable type: 'list'")
  | VNone | VStr _ | VFile _ => Ok default
  end.

Definition is_KeyError (e : exn) : bool :=
  match e with
  | KeyError _ => true
  | _ => false
  end.

(** Truth value of what [get_safe] returns ([None] or a string). *)
Definition truthy_opt (o : option string) : bool :=
  match o with
  | Some s => Py.truthy (VStr s)
  | None => false
  end.

Section MetaCommand.

Variable X : Externals.

(** The dictionary literal of [_configure_logging]; of two equal keys the
    later one stays. *)
Definition console_levels : gmap Z Z :=
  <[OUTPUT_DEBUG X := logging.DEBUG]>
    (<[OUTPUT_INFO X := logging.INFO]>
       (<[OUTPUT_WARNING X := logging.WARNING]>
          (<[OUTPUT_SILENT X := logging.ERROR]> ∅))).

(** [MetaCommand._configure_logging] *)
Definition _configure_logging : M unit :=
  root_logger0 <- gets (fun st => root_logger (proc st)) ;;
  let null_handlers := List.filter logging.is_NullHandler (logging.handlers root_logger0) in
  logging_level <-
    try_except
      (c <- self_config "logging_level" ;;
       lift (logging.getattr (PyStr.upper (logging_level c))))
      is_KeyError
      (fun _ => ret (logging.LInt logging.ERROR)) ;;
  c <- self_config "get_safe" ;;
  let log_file := get_safe c "Log" "OutputFile" in
  match log_file with
  | Some filename =>
      file_handler <- new_FileHandler filename ;;
      c <- self_config "get_safe" ;;
      let formatter := {| logging.fmt := get_safe c "Log" "FileFormat" |} in
      root_addHandler (logging.setFormatter formatter file_handler)
  | None => ret tt
  end ;;
  err <- gets (fun st => stderr (self st)) ;;
  let console := logging.new_Handler (logging.StreamHandler err) in
  let console_level_default :=
    if truthy_opt log_file then logging.LInt logging.ERROR else logging_level in
  c <- self_config "verbosity" ;;
  console_level <- lift (dict_get console_levels (verbosity c) console_level_default) ;;
  n <- lift (logging._checkLevel console_level) ;;
  let console := logging.with_level n console in
  c <- self_config "get_safe" ;;
  let formatter := {| logging.fmt := get_safe c "Log" "ConsoleFormat" |} in
  let console := logging.setFormatter formatter console in
  root_addHandler console ;;
  root_setLevel (logging.min logging_level console_level) ;;
  for_each null_handlers root_removeHandler ;;
  c <- self_config "silent" ;;
  if silent X c then modify (with_self (set_stdout logging.NullFile)) else ret tt.

(** The [MetaCommand.command_manager] property. *)
Definition command_manager : M CommandManager :=
  m <- gets (fun st => _command_manager (self st)) ;;
  match m with
  | Some m => ret m
  | None =>
      id <- fresh_id ;;
      emit (EvNewCommandManager id) ;;
      let m := {| cm_id := id; commands := builtin_commands X |} in
      modify (with_self (set__command_manager (Some m))) ;;
      let m := add_command "help" "Help" m in
      modify (with_self (set__command_manager (Some m))) ;;
      ret m
  end.

(** The [MetaCommand.session] property. *)
Definition session : M Session :=
  s <- gets (fun st => _session (self st)) ;;
  match s with
  | Some s => ret s
  | None =>
      host <- self_options "--host" ;;
      missing <- (if Py.truthy host then ret false
                  else hf <- self_options "--hosts-file" ;; ret (negb (Py.truthy hf))) ;;
      (if missing : bool
       then LOG_critical "missing one of (--host | --hosts-file) arguments" ;; sys_exit 1
       else ret tt) ;;
      let hosts : list string := [] in
      hf <- self_options "--hosts-file" ;;
      hosts <-
        (if Py.truthy hf then
           hosts_file <- self_options "--hosts-file" ;;
           try_except
             (path <- self_options "--hosts-file" ;;
              _ <- open_rt path ;;
              arg <- self_options "--hosts-file" ;;
              parsed <- lift (parse_hosts_file arg) ;;
              ret (hosts ++ parsed)%list)
             Py.is_OSError_or_IOError
             (fun err =>
                LOG_critical (could_not_read (Py.str hosts_file) (Py.exn_str err)) ;;
                sys_exit 1)
         else ret hosts) ;;
      host <- self_options "--host" ;;
      more <- lift (Py.iter host) ;;
      let hosts := (hosts ++ more)%list in
      user <- self_options "--user" ;;
      credentials <-
        (if Py.truthy user then
           user <- self_options "--user" ;;
           ret (Some (credentials_for user hosts))
         else ret None) ;;
      s <- new_Session hosts credentials ;;
      modify (with_self (set__session (Some s))) ;;
      ret s
  end.

(** Modelled from the spec: [Configuration.get_instance], the
    accessor of the configuration singleton, which is defined outside
    this module: the first call creates the instance from its keyword
    arguments, every call returns the instance. *)
Definition get_instance (user_config : option value) : M Configuration :=
  emit (EvGetInstance user_config) ;;
  inst <- gets (fun st => Configuration_instance (proc st)) ;;
  match inst with
  | Some c => ret c
  | None =>
      let c := new_Configuration X user_config in
      modify (with_proc (set_Configuration_instance (Some c))) ;;
      ret c
  end.

(** [MetaCommand.setup] *)
Definition setup (options : gmap string value) : M unit :=
  cf <- getitem options "--config-file" ;;
  let '(conf_kwargs, options) :=
    if Py.truthy cf then (Some cf, delete "--config-file" options) else (None, options) in
  c <- get_instance conf_kwargs ;;
  modify (with_self (set_config (Some c))) ;;
  let '(tr, options) := pop_default options "--trace" (VBool false) in
  emit (EvSetTrace tr) ;;
  self_config_update "trace" (set_trace tr) ;;
  quiet <- getitem options "--quiet" ;;
  (if Py.truthy quiet then
     emit (EvSetVerbosity (VInt (OUTPUT_SILENT X))) ;;
     self_config_update "verbosity" (set_verbosity (VInt (OUTPUT_SILENT X)))
   else
     v <- getitem options "-v" ;;
     if (Py.truthy v && Py.gt0 v)%bool then
       v <- getitem options "-v" ;;
       emit (EvSetVerbosity v) ;;
       self_config_update "verbosity" (set_verbosity v)
     else ret tt) ;;
  _configure_logging ;;
  options <- delitem options "--quiet" ;;
  options <- delitem options "-v" ;;
  modify (with_self (set__options (Some options))).

(** [MetaCommand.run]; [TopLevelCommand_run argv] is [cmd.run(argv)] for
    [cmd = TopLevelCommand(self)]. *)
Definition run (TopLevelCommand_run : list string -> M value) (argv : list string) : M value :=
  try_except
    (TopLevelCommand_run argv)
    Py.is_Exception
    (fun exc =>
       c <- gets (fun st => config (self st)) ;;
       let trace := match c with
                    | None => VBool true
                    | Some c => trace c
                    end in
       (if (Py.is_LmiError exc || negb (Py.truthy trace))%bool
        then LOG_error (Py.exn_str exc)
        else LOG_exception "fatal" exc) ;;
       ret (VInt 1)).

(** Modelled from the spec: [TopLevelCommand.run], which is defined
    outside this module.  It reads the CLI flags ([docopt]), has [setup]
    populate the configuration and attach the log handlers, obtains the
    session (which parses the hosts file when one is given) and then
    hands control to the subcommand; [dispatch] is the subcommand's
    result, its own effects are not followed. *)
Definition TopLevelCommand_run
    (docopt : list string -> result (gmap string value))
    (dispatch : Session -> gmap string value -> result value)
    (argv : list string) : M value :=
  emit (EvDocopt argv) ;;
  options <- lift (docopt argv) ;;
  setup options ;;
  s <- session ;;
  emit (EvDelegate (s_id s)) ;;
  lift (dispatch s options).

(** [main(argv)]: [MetaCommand().run(argv)] *)
Definition main (TopLevelCommand_run : list string -> M value) (argv : list string)
    (p : process) : result value * state :=
  run TopLevelCommand_run argv {| proc := p; self := __init__ |}.

End MetaCommand.

Arguments _configure_logging : simpl never.

(** ** A sample environment *)

Definition sample_Configuration (user_config : option value) : Configuration :=
  {| user_config_file_path := user_config;
     trace := VBool false;
     verbosity := VInt 0;
     logging_level := "error";
     items := ∅ |}.

Definition sample_externals : Externals :=
  {| OUTPUT_SILENT := -1;
     OUTPUT_WARNING := 0;
     OUTPUT_INFO := 1;
     OUTPUT_DEBUG := 2;
     silent := fun c => match verbosity c with
                        | VInt n => Z.leb n (-1)
                        | _ => false
                        end;
     new_Configuration := sample_Configuration;
     builtin_commands := ∅ |}.

(** Three lines; the second is blank, the third has spaces around the name
    and no final LF. *)
Definition hosts_data : string :=
  "alpha" ++ String PyStr.LF (String PyStr.LF "  beta.example.org ").

(** Two lines: an empty one and one of spaces. *)
Definition blank_data : string :=
  String PyStr.LF ("   " ++ String PyStr.LF EmptyString).

Definition sample_files : gmap string fs_entry :=
  <["hosts" := Regular hosts_data]>
    (<["blank" := Regular blank_data]>
       (<["empty" := Regular EmptyString]>
          (<["secret" := Denied (IOError "[Errno 13] Permission denied: 'secret'")]> ∅))).

(** What docopt returns for [lmi --user root --host gamma <command>]. *)
Definition sample_options : gmap string value :=
  list_to_map
    [("--config-file", VNone); ("--trace", VBool false); ("--quiet", VBool false);
     ("-v", VInt 0); ("--host", VList ["gamma"]); ("--hosts-file", VNone);
     ("--user", VStr "root")].

(** A new [MetaCommand] in a process that just imported the module. *)
Definition started : state :=
  {| proc := imported sample_files; self := __init__ |}.

(** The same with [self._options] already holding the given options. *)
Definition configured (options : gmap string value) : state :=
  with_self (set__options (Some options)) started.

(** A top-level command that sets up with no host at all and then asks
    for the session. *)
Definition exiting_command (argv : list string) : M value :=
  setup sample_externals (<["--host" := VList []]> sample_options) ;;
  session ;;
  ret (VInt 0).

(** A top-level command that fails with an [LmiError] after [setup]. *)
Definition failing_command (argv : list string) : M value :=
  setup sample_externals sample_options ;;
  raise (LmiError "no such command").

(** A configuration whose [[Log] OutputFile] is set. *)
Definition logging_to_file : Configuration :=
  {| user_config_file_path := None;
     trace := VBool false;
     verbosity := VInt 1;
     logging_level := "debug";
     items := <[("Log", "OutputFile") := "lmi.log"]> ∅ |}.

(** A new [MetaCommand] whose [config] is already the given object. *)
Definition ready (c : Configuration) : state :=
  with_self (set_config (Some c)) started.

(** docopt and a subcommand for the sample command line. *)
Definition sample_docopt (argv : list string) : result (gmap string value) :=
  Ok sample_options.

Definition sample_dispatch (s : Session) (options : gmap string value) : result value :=
  Ok (VInt 0).

(** ** Observations on a run *)

Definition is_EvNewSession (e : event) : bool :=
  match e with
  | EvNewSession _ _ => true
  | _ => false
  end.

Definition is_EvNewCommandManager (e : event) : bool :=
  match e with
  | EvNewCommandManager _ => true
  | _ => false
  end.

(** How many times [Session(...)] was called so far. *)
Definition sessions_created (st : state) : nat :=
  length (List.filter is_EvNewSession (events (proc st))).

(** How many times [CommandManager()] was called so far. *)
Definition managers_created (st : state) : nat :=
  length (List.filter is_EvNewCommandManager (events (proc st))).

(** Between two states no [Session] was constructed, and none is stored. *)
Definition no_session_constructed (st st' : state) : Prop :=
  _session (self st') = None /\ sessions_created st' = sessions_created st.

(** The state after logging one critical record. *)
Definition logged_critical (msg : string) (st : state) : state :=
  with_proc (add_event (EvLog logging.CRITICAL msg None)) st.

(** Whether tracing counts as enabled when [run] handles an exception: a
    configuration that is still [None] counts as enabled. *)
Definition tracing_enabled (st : state) : bool :=
  match config (self st) with
  | None => true
  | Some c => Py.truthy (trace c)
  end.

(** The two ways [run] logs an exception: the message alone, or the word
    "fatal" with the traceback of the exception. *)
Definition message_only (exc : exn) : event :=
  EvLog logging.ERROR (Py.exn_str exc) None.

Definition full_traceback (exc : exn) : event :=
  EvLog logging.ERROR "fatal" (Some exc).

(** A computation keeps a relation between the state it starts in and
    the state it leaves, whatever its outcome. *)
Definition preserves {A} (R : state -> state -> Prop) (m : M A) : Prop :=
  forall st, R st (snd (m st)).

Definition is_logging_event (e : event) : bool :=
  match e with
  | EvAddHandler _ | EvRemoveHandler _ | EvSetLevel _ => true
  | _ => false
  end.

(** Only the logging setup changed: the root logger, [self.stdout], and
    the events of attaching and removing handlers and setting the level. *)
Definition logging_only (st st' : state) : Prop :=
  self st' = set_stdout (stdout (self st')) (self st) /\
  fs (proc st') = fs (proc st) /\
  Configuration_instance (proc st') = Configuration_instance (proc st) /\
  next_id (proc st') = next_id (proc st) /\
  exists evs, events (proc st') = (events (proc st) ++ evs)%list /\
              forallb is_logging_event evs = true.

(** The process after [root_logger.removeHandler] ran on each of the
    given handlers. *)
Definition handlers_removed (hs : list logging.Handler) (p : process) : process :=
  {| fs := fs p;
     root_logger := fold_left (fun lg h => logging.removeHandler h lg) hs (root_logger p);
     Configuration_instance := Configuration_instance p;
     next_id := next_id p;
     events := (events p ++ map EvRemoveHandler hs)%list |}.

Definition not_NullHandler (h : logging.Handler) : bool := negb (logging.is_NullHandler h).

(** The verbosity [setup] leaves in the configuration: silent for
    [--quiet], else the [-v] count when it is positive, else what was
    there. *)
Definition requested_verbosity (X : Externals) (quiet v current : value) : value :=
  if Py.truthy quiet then VInt (OUTPUT_SILENT X)
  else if (Py.truthy v && Py.gt0 v)%bool then v
  else current.

(** The two lazily built objects are what they were, and none was
    constructed in between. *)
Definition objects_kept (st st' : state) : Prop :=
  _command_manager (self st') = _command_manager (self st) /\
  _session (self st') = _session (self st) /\
  managers_created st' = managers_created st /\
  sessions_created st' = sessions_created st.

(** The calls a user of a [MetaCommand] instance can make. *)
Inductive call :=
| GetCommandManager
| GetSession
| Setup (options : gmap string value)
| ConfigureLogging.

(** The state after a call, whatever its outcome. *)
Definition perform (X : Externals) (c : call) (st : state) : state :=
  match c with
  | GetCommandManager => snd (command_manager X st)
  | GetSession => snd (session st)
  | Setup options => snd (setup X options st)
  | ConfigureLogging => snd (_configure_logging X st)
  end.

Definition after_calls (X : Externals) (calls : list call) (st : state) : state :=
  fold_left (fun st c => perform X c st) calls st.

(** A new [MetaCommand] in the given process. *)
Definition new_MetaCommand (p : process) : state :=
  {| proc := p; self := __init__ |}.

(** What holds of a [MetaCommand] however it is used, [m0] and [s0] being
    the numbers of managers and sessions constructed before it was
    created: an object that is stored was constructed once, by its
    property, and the stored manager knows the [help] command. *)
Definition memo_inv (m0 s0 : nat) (st : state) : Prop :=
  match _command_manager (self st) with
  | Some m => commands m !! "help" = Some "Help" /\ managers_created st = S m0
  | None => managers_created st = m0
  end /\
  match _session (self st) with
  | Some _ => sessions_created st = S s0
  | None => sessions_created st = s0
  end.

(** The step of an invocation an event belongs to: reading the CLI flags
    (0), populating the configuration (1), attaching the log handlers (2),
    opening the hosts file (3), constructing the session (4), delegating
    to the subcommand (5).  Log records and the construction of the
    command manager belong to no step. *)
Definition phase (e : event) : option nat :=
  match e with
  | EvDocopt _ => Some 0%nat
  | EvGetInstance _ | EvSetTrace _ | EvSetVerbosity _ => Some 1%nat
  | EvAddHandler _ | EvRemoveHandler _ | EvSetLevel _ => Some 2%nat
  | EvOpen _ => Some 3%nat
  | EvNewSession _ _ => Some 4%nat
  | EvDelegate _ => Some 5%nat
  | EvLog _ _ _ | EvNewCommandManager _ => None
  end.

Definition phases (evs : list event) : list nat := omap phase evs.

(** The events come in the order of their steps. *)
Definition in_order (evs : list event) : Prop := StronglySorted Nat.le (phases evs).

(** From one state to the other, events were added in the order of their
    steps, all of steps [lo] to [hi]. *)
Definition between (lo hi : nat) (st st' : state) : Prop :=
  exists evs,
    events (proc st') = (events (proc st) ++ evs)%list /\
    in_order evs /\
    Forall (fun n => (lo <= n <= hi)%nat) (phases evs).

(** The state a successful construction of the session leaves. *)
Definition session_stored (s : Session) (st : state) : state :=
  with_self (set__session (Some s))
    (with_proc (add_event (EvNewSession (s_id s) (s_hosts s)))
       (with_proc (set_next_id (S (next_id (proc st)))) st)).

(** ** Hosts files as text *)

(** The character occurs in the string. *)
Fixpoint has_char (c : ascii) (s : string) : bool :=
  match s with
  | EmptyString => false
  | String d s' => (Ascii.eqb d c || has_char c s')%bool
  end.

(** The text of a hosts file with the given hostnames, one per line, each
    line ended by LF. *)
Fixpoint hosts_text (hosts : list string) : string :=
  match hosts with
  | [] => EmptyString
  | h :: hosts' => h ++ String PyStr.LF (hosts_text hosts')
  end.

(** A hostname as a hosts file can carry it: no LF in it and no whitespace
    at either end. *)
Definition plain_hostname (h : string) : Prop :=
  has_char PyStr.LF h = false /\ PyStr.trimmed h.

(** ** Writing to [self.stdout] *)

(** [stream.write(data)]: the data that reaches a stream.  [NullFile.write]
    ignores what it is given; the standard input is not open for
    writing. *)
Definition write (s : logging.stream) (data : string)
  : result (list (logging.stream * string)) :=
  match s with
  | logging.NullFile => Ok []
  | logging.sys_stdin => Raise (IOError "File not open for writing")
  | _ => Ok [(s, data)]
  end.

(** [MetaCommand.print_version]; [version] is what [util.get_version()]
    returns, and the value of the computation is what was written. *)
Definition print_version (version : string) : M (list (logging.stream * string)) :=
  out <- gets (fun st => stdout (self st)) ;;
  lift (write out (version ++ String PyStr.LF EmptyString)).

(** * Properties *)

(** ** Strings *)

Lemma append_nil (b : string) : EmptyString ++ b = b.
Proof. reflexivity. Qed.

Lemma append_cons (c : ascii) (a b : string) : String c a ++ b = String c (a ++ b).
Proof. reflexivity. Qed.

Lemma append_nil_r (a : string) : a ++ EmptyString = a.
Proof.
  induction a as [|c a IH]; [reflexivity|].
  now rewrite append_cons, IH.
Qed.

Lemma all_space_app (a b : string) :
  PyStr.all_space (a ++ b) = (PyStr.all_space a && PyStr.all_space b)%bool.
Proof.
  induction a as [|c a IH]; [reflexivity|].
  rewrite append_cons. simpl. rewrite IH. now rewrite andb_assoc.
Qed.

(** [lstrip] removes a prefix of whitespace and stops at the first
    character that is not whitespace. *)
Lemma lstrip_spec (s : string) :
  exists l, s = l ++ PyStr.lstrip s /\ PyStr.all_space l = true /\
            forall c, PyStr.first_char (PyStr.lstrip s) = Some c -> PyStr.isspace c = false.
Proof.
  induction s as [|c s IH]; simpl.
  - exists EmptyString. repeat split. discriminate.
  - destruct (PyStr.isspace c) eqn:Hc.
    + destruct IH as (l & Hl & Hsp & Hfirst).
      exists (String c l). rewrite append_cons. simpl. rewrite Hc, Hsp.
      split; [now f_equal|]. split; [reflexivity | assumption].
    + exists EmptyString. rewrite append_nil. simpl. repeat split.
      intros c' [= <-]. assumption.
Qed.

Lemma rstrip_first_char (s : string) :
  PyStr.rstrip s <> EmptyString ->
  PyStr.first_char (PyStr.rstrip s) = PyStr.first_char s.
Proof.
  destruct s as [|c s]; simpl; [reflexivity|].
  destruct (PyStr.rstrip s); [destruct (PyStr.isspace c)|]; simpl; congruence.
Qed.

(** [rstrip] removes a suffix of whitespace and leaves a string whose last
    character is not whitespace. *)
Lemma rstrip_spec (s : string) :
  exists r, s = PyStr.rstrip s ++ r /\ PyStr.all_space r = true /\
            forall c, PyStr.last_char (PyStr.rstrip s) = Some c -> PyStr.isspace c = false.
Proof.
  induction s as [|c s IH]; simpl.
  - exists EmptyString. repeat split. discriminate.
  - destruct IH as (r & Hr & Hsp & Hlast).
    destruct (PyStr.rstrip s) as [|d t] eqn:Hrs.
    + rewrite append_nil in Hr. subst r.
      destruct (PyStr.isspace c) eqn:Hc.
      * exists (String c s). rewrite append_nil. simpl. rewrite Hc, Hsp.
        repeat split. discriminate.
      * exists s. rewrite append_cons, append_nil. repeat split; [assumption|].
        simpl. intros c' [= <-]. assumption.
    + exists r. rewrite append_cons. split; [now f_equal|]. split; [assumption|].
      intros c' Hc'. apply Hlast. exact Hc'.
Qed.

(** [strip] takes whitespace, and only whitespace, from both ends. *)
Lemma strip_spec (s : string) :
  exists l r, s = l ++ PyStr.strip s ++ r /\
              PyStr.all_space l = true /\ PyStr.all_space r = true /\
              PyStr.trimmed (PyStr.strip s).
Proof.
  destruct (lstrip_spec s) as (l & Hl & Hlsp & Hfirst).
  destruct (rstrip_spec (PyStr.lstrip s)) as (r & Hr & Hrsp & Hlast).
  exists l, r. unfold PyStr.strip, PyStr.trimmed.
  split; [rewrite <- Hr; exact Hl|].
  repeat split; try assumption.
  intros c Hc. apply Hfirst. rewrite <- rstrip_first_char; [assumption|].
  intros Hnil. rewrite Hnil in Hc. discriminate.
Qed.

Lemma concat_cons (l : string) (ls : list string) :
  String.concat EmptyString (l :: ls) = l ++ String.concat EmptyString ls.
Proof.
  destruct ls as [|l' ls]; simpl; [now rewrite append_nil_r | reflexivity].
Qed.

(** The lines [readlines] returns are the file's data cut after every LF. *)
Lemma splitlines_keepends_concat (s : string) :
  String.concat EmptyString (PyStr.splitlines_keepends s) = s.
Proof.
  induction s as [|c s IH]; [reflexivity|].
  cbn [PyStr.splitlines_keepends].
  destruct (Ascii.eqb c PyStr.LF).
  - rewrite concat_cons, IH. reflexivity.
  - destruct (PyStr.splitlines_keepends s) as [|l ls].
    + simpl in IH. now subst s.
    + rewrite concat_cons in *. rewrite append_cons. now rewrite IH.
Qed.

Lemma splitlines_keepends_lines (s : string) :
  Forall (fun l => PyStr.is_line l = true) (PyStr.splitlines_keepends s).
Proof.
  induction s as [|c s IH]; simpl; [constructor|].
  destruct (Ascii.eqb c PyStr.LF) eqn:Hc.
  - constructor; [reflexivity | assumption].
  - destruct (PyStr.splitlines_keepends s) as [|l ls]; [repeat constructor|].
    inversion IH as [|? ? Hl Hls]; subst. constructor; [|assumption].
    destruct l; [discriminate|]. simpl in *. rewrite Hc. exact Hl.
Qed.

(** ** [parse_hosts_file] *)

Lemma parse_hosts_loop (lines acc : list string) :
  fold_left parse_hosts_step lines acc = (acc ++ map PyStr.strip lines)%list.
Proof.
  revert acc. induction lines as [|l lines IH]; intros acc; simpl.
  - now rewrite app_nil_r.
  - rewrite IH. unfold parse_hosts_step. now rewrite <- app_assoc.
Qed.

Lemma parse_hosts_file_file (f : file) :
  parse_hosts_file (VFile f)
  = Ok (map PyStr.strip (PyStr.splitlines_keepends (f_data f))).
Proof.
  unfold parse_hosts_file. simpl. now rewrite parse_hosts_loop.
Qed.

(** C2: for every file object, [parse_hosts_file] returns one hostname per
    line of the file, in the order of the lines, each being the line with
    its leading and trailing whitespace stripped. *)
Theorem C2_parse_hosts_file_strips_each_line (f : file) :
  let lines := PyStr.splitlines_keepends (f_data f) in
  exists hosts,
    parse_hosts_file (VFile f) = Ok hosts /\
    String.concat EmptyString lines = f_data f /\
    Forall (fun l => PyStr.is_line l = true) lines /\
    length hosts = length lines /\
    forall (i : nat) (line : string), lines !! i = Some line ->
      exists host l r,
        hosts !! i = Some host /\
        host = PyStr.strip line /\
        line = l ++ host ++ r /\
        PyStr.all_space l = true /\ PyStr.all_space r = true /\
        PyStr.trimmed host.
Proof.
  intros lines. exists (map PyStr.strip lines).
  split; [apply parse_hosts_file_file|].
  split; [apply splitlines_keepends_concat|].
  split; [apply splitlines_keepends_lines|].
  split; [apply length_map|].
  intros i line Hi.
  destruct (strip_spec line) as (l & r & Heq & Hl & Hr & Ht).
  exists (PyStr.strip line), l, r.
  rewrite list_lookup_fmap, Hi. simpl. auto 10.
Qed.

(** ** The [session] property *)

Lemma truthy_VStr (s : string) : s <> EmptyString -> Py.truthy (VStr s) = true.
Proof.
  intros Hs. simpl. destruct (String.eqb_spec s EmptyString); [contradiction | reflexivity].
Qed.

Ltac unfold_M :=
  unfold self_options, self_config, self_config_update, open_rt, new_Session, new_FileHandler,
    root_addHandler, root_removeHandler, root_setLevel, fresh_id,
    LOG_critical, LOG_error, LOG_exception, sys_exit, emit, modify, gets, lift,
    getitem, delitem, try_except, bind, ret, raise in *.

(** Bring the state into constructor form, so that reading an attribute
    computes. *)
Ltac open_state st :=
  let p := fresh "p" in
  let a := fresh "a" in
  destruct st as [p a]; destruct p, a; simpl in *; subst.

(** Run a computation on the facts at hand: dictionary lookups and truth
    values that hypotheses settle are rewritten, the rest is computed. *)
Ltac sym_exec :=
  repeat (simpl;
          match goal with
          | H : ?d !! ?k = _ |- context [?d !! ?k] => rewrite H
          | H : Py.truthy ?v = _ |- context [Py.truthy ?v] => rewrite H
          | H : Py.gt0 ?v = _ |- context [Py.gt0 ?v] => rewrite H
          | H : String.eqb ?a ?b = _ |- context [String.eqb ?a ?b] => rewrite H
          end);
  simpl.

(** C8: when [--hosts-file] names a file that opens, the first access to
    [session] raises [AttributeError] ([parse_hosts_file] gets the path
    string, which has no [readlines]); the handler for [OSError] and
    [IOError] does not catch it, so it leaves the property, and no
    [Session] is stored. *)
Theorem C8_hosts_file_raises_AttributeError
    (st : state) (opts : gmap string value) (host : value) (path data : string) :
  _session (self st) = None ->
  _options (self st) = Some opts ->
  opts !! "--host" = Some host ->
  opts !! "--hosts-file" = Some (VStr path) ->
  path <> EmptyString ->
  fs (proc st) !! path = Some (Regular data) ->
  let e := AttributeError "'str' object has no attribute 'readlines'" in
  session st = (Raise e, with_proc (add_event (EvOpen path)) st) /\
  Py.is_OSError_or_IOError e = false /\
  _session (self (snd (session st))) = None.
Proof.
  intros Hs Ho Hhost Hhf Hpath Hfs e.
  assert (Hrun : session st = (Raise e, with_proc (add_event (EvOpen path)) st)).
  { apply truthy_VStr in Hpath. simpl in Hpath. apply negb_true_iff in Hpath.
    open_state st. unfold session. unfold_M.
    destruct (Py.truthy host) eqn:Hth; sym_exec; reflexivity. }
  rewrite Hrun. simpl. auto.
Qed.

(** C4: when neither [--host] nor [--hosts-file] is supplied, the first
    access to [session] logs a critical error and exits with status 1;
    when the [--hosts-file] path cannot be opened ([OSError] or [IOError])
    it logs a critical error naming the file and exits with status 1; in
    neither case is a [Session] constructed.  The records are given as
    they reach the log: level 50 ([CRITICAL]), and for the second exit the
    text [could not read hosts file], the path between double quotes
    (character 34), a colon and the error. *)
Theorem C4_session_exits_with_status_1
    (st : state) (opts : gmap string value) (host hf : value) :
  _session (self st) = None ->
  _options (self st) = Some opts ->
  opts !! "--host" = Some host ->
  opts !! "--hosts-file" = Some hf ->
  (Py.truthy host = false -> Py.truthy hf = false ->
   session st
   = (Raise (SystemExit 1),
      logged_critical "missing one of (--host | --hosts-file) arguments" st) /\
   events (proc (snd (session st)))
   = (events (proc st)
        ++ [EvLog 50 "missing one of (--host | --hosts-file) arguments" None])%list /\
   no_session_constructed st (snd (session st)))
  /\
  (forall err : exn,
     Py.truthy hf = true ->
     fst (open_rt hf st) = Raise err ->
     Py.is_OSError_or_IOError err = true ->
     exists path msg,
       hf = VStr path /\
       msg = "could not read hosts file "
               ++ String "034"%char (path ++ String "034"%char (": " ++ Py.exn_str err)) /\
       (exists before after, msg = before ++ path ++ after) /\
       session st
       = (Raise (SystemExit 1),
          logged_critical msg (with_proc (add_event (EvOpen path)) st)) /\
       events (proc (snd (session st)))
       = (events (proc st) ++ [EvOpen path; EvLog 50 msg None])%list /\
       no_session_constructed st (snd (session st))).
Proof.
  intros Hs Ho Hhost Hhf. split.
  - intros Hth Htf.
    assert (Hrun : session st
                   = (Raise (SystemExit 1),
                      logged_critical "missing one of (--host | --hosts-file) arguments" st)).
    { open_state st. unfold session. unfold_M. sym_exec. reflexivity. }
    rewrite Hrun. split; [reflexivity|]. split; [reflexivity|].
    unfold no_session_constructed, sessions_created. open_state st. simpl.
    rewrite List.filter_app. simpl. now rewrite app_nil_r.
  - intros err Htf Hopen Herr.
    destruct hf as [| | |path| |]; simpl in Hopen;
      try (injection Hopen as <-; discriminate Herr).
    exists path. eexists. split; [reflexivity|]. split; [reflexivity|].
    split.
    { exists ("could not read hosts file " ++ String "034"%char EmptyString),
        (String "034"%char (": " ++ Py.exn_str err)).
      reflexivity. }
    assert (Hrun : session st
                   = (Raise (SystemExit 1),
                      logged_critical
                        ("could not read hosts file "
                           ++ String "034"%char
                                (path ++ String "034"%char (": " ++ Py.exn_str err)))
                        (with_proc (add_event (EvOpen path)) st))).
    { simpl in Htf. apply negb_true_iff in Htf.
      open_state st. unfold session. unfold_M. simpl in Hopen.
      destruct (Py.truthy host) eqn:Hth; sym_exec;
        destruct (fs0 !! path) as [[data|e]|]; simpl in *;
        try discriminate Hopen; injection Hopen as <-; try rewrite Herr; reflexivity. }
    rewrite Hrun. split; [reflexivity|].
    split; [simpl; now rewrite <- app_assoc|].
    unfold no_session_constructed, sessions_created. open_state st. simpl.
    rewrite !List.filter_app. simpl. now rewrite !app_nil_r.
Qed.

(** Whenever a hosts file is supplied, the access ends in an exception
    and constructs no [Session]: either the file cannot be opened, or
    [parse_hosts_file] is handed the path instead of the file object. *)
Lemma session_hosts_file_never_constructs
    (st : state) (opts : gmap string value) (hf : value) :
  _session (self st) = None ->
  _options (self st) = Some opts ->
  opts !! "--hosts-file" = Some hf ->
  Py.truthy hf = true ->
  (exists e, fst (session st) = Raise e) /\
  no_session_constructed st (snd (session st)).
Proof.
  intros Hs Ho Hhf Htf. unfold no_session_constructed.
  open_state st. unfold session. unfold_M. simpl.
  destruct (opts !! "--host") as [host|] eqn:Hhost; simpl.
  2: { split; [eexists; reflexivity | split; reflexivity]. }
  destruct (Py.truthy host) eqn:Hth; sym_exec.
  all: destruct hf as [| | |path| |]; try discriminate Htf; sym_exec.
  all: try (destruct (fs0 !! path) as [[data|e]|]; sym_exec).
  all: try (destruct (Py.is_OSError_or_IOError e); sym_exec).
  all: split; [eexists; reflexivity|]; split; [reflexivity|].
  all: unfold sessions_created; simpl; rewrite ?List.filter_app; simpl;
    now rewrite ?app_nil_r.
Qed.

(** Case analysis on whatever a computation in hypothesis [H] is waiting
    for. *)
Ltac case_exec H :=
  repeat (simpl in H;
          first
            [ match goal with
              | Heq : ?d !! ?k = _ |- _ => rewrite Heq in H
              | Heq : Py.truthy ?v = _ |- _ => rewrite Heq in H
              end
            | match type of H with
              | context [match ?d !! ?k with _ => _ end] => destruct (d !! k) eqn:?
              | context [Py.truthy ?v] => destruct (Py.truthy v) eqn:?
              | context [match Py.iter ?v with _ => _ end] => destruct (Py.iter v) eqn:?
              | context [if Py.is_OSError_or_IOError ?e then _ else _] =>
                  destruct (Py.is_OSError_or_IOError e) eqn:?
              | context [match ?v with VStr _ => _ | _ => _ end] => destruct v
              | context [match ?f with Regular _ => _ | Denied _ => _ end] => destruct f
              end ];
          try discriminate H);
  simpl in H.

(** What a first access that constructs the [Session] passes to it: no
    hosts file is in play, the hosts are the [--host] arguments in order,
    and the credentials are built from [--user]. *)
Lemma session_constructs (st st' : state) (s : Session) :
  _session (self st) = None ->
  session st = (Ok s, st') ->
  exists opts host hf user,
    _options (self st) = Some opts /\
    opts !! "--host" = Some host /\
    opts !! "--hosts-file" = Some hf /\
    opts !! "--user" = Some user /\
    Py.truthy hf = false /\
    Py.iter host = Ok (s_hosts s) /\
    s_credentials s
    = (if Py.truthy user then Some (credentials_for user (s_hosts s)) else None) /\
    s_id s = next_id (proc st) /\
    st' = session_stored s st.
Proof.
  intros Hs Hrun. open_state st. unfold session in Hrun. unfold_M.
  simpl in Hrun. destruct _options0 as [opts|]; [|discriminate Hrun].
  case_exec Hrun.
  all: injection Hrun as <- <-; simpl.
  all: eexists _, _, _, _; repeat split; eauto.
  all: match goal with H : Py.truthy _ = _ |- context [Py.truthy _] => now rewrite H end.
Qed.

(** A stored session is returned as it is, and nothing else happens. *)
Lemma session_memoized (st : state) (s : Session) :
  _session (self st) = Some s -> session st = (Ok s, st).
Proof.
  intros Hs. unfold session, bind, gets, ret. simpl. now rewrite Hs.
Qed.

(** The dictionary comprehension maps exactly the given hosts, each to
    the user with an empty password. *)
Lemma credentials_for_lookup (user : value) (hosts : list string) (h : string) :
  credentials_for user hosts !! h
  = (if decide (h ∈ hosts) then Some (user, EmptyString) else None).
Proof.
  unfold credentials_for.
  assert (Hgen : forall (d : gmap string (value * string)),
             fold_left (fun d h => <[h := (user, EmptyString)]> d) hosts d !! h
             = (if decide (h ∈ hosts) then Some (user, EmptyString) else d !! h)).
  { induction hosts as [|x hosts IH]; intros d; simpl.
    - destruct (decide (h ∈ [])) as [Hin|_]; [|reflexivity]. inversion Hin.
    - rewrite IH. destruct (decide (h ∈ hosts)) as [Hin|Hnin].
      + rewrite decide_True; [reflexivity | now right].
      + destruct (decide (h = x)) as [->|Hne].
        * rewrite decide_True; [|now left]. apply lookup_insert_eq.
        * rewrite decide_False.
          -- now apply lookup_insert_ne.
          -- intros Hin. inversion Hin; subst; contradiction. }
  rewrite Hgen. destruct (decide (h ∈ hosts)); [reflexivity | apply lookup_empty].
Qed.

(** On the path that does construct the [Session] (no hosts file is
    given), the hosts passed are the [--host] arguments in order, and the
    credentials map every one of them to the user with an empty password
    when [--user] is given and are [None] otherwise. *)
Lemma session_passes_host_arguments (st st' : state) (s : Session) :
  _session (self st) = None ->
  session st = (Ok s, st') ->
  exists opts host user,
    _options (self st) = Some opts /\
    opts !! "--host" = Some host /\
    opts !! "--user" = Some user /\
    Py.iter host = Ok (s_hosts s) /\
    (Py.truthy user = false -> s_credentials s = None) /\
    (Py.truthy user = true ->
     exists creds,
       s_credentials s = Some creds /\
       forall h, creds !! h
                 = (if decide (h ∈ s_hosts s) then Some (user, EmptyString) else None)).
Proof.
  intros Hs Hrun.
  destruct (session_constructs st st' s Hs Hrun)
    as (opts & host & hf & user & Ho & Hhost & _ & Huser & _ & Hiter & Hcred & _).
  exists opts, host, user. repeat split; try assumption.
  - intros Hu. now rewrite Hu in Hcred.
  - intros Hu. rewrite Hu in Hcred. eexists. split; [exact Hcred|].
    intros h. apply credentials_for_lookup.
Qed.

(** C3: with [--hosts-file hosts --host gamma --user root] the hostnames of
    the file are [alpha], the empty name and [beta.example.org], yet the
    access to [session] raises [AttributeError] after opening the file: no
    [Session] receives the hosts of the file followed by [gamma]. *)
Theorem C3_hosts_file_hosts_never_reach_Session :
  let st := configured (<["--hosts-file" := VStr "hosts"]> sample_options) in
  parse_hosts_file (VFile (File "hosts" hosts_data))
  = Ok ["alpha"; EmptyString; "beta.example.org"] /\
  session st
  = (Raise (AttributeError "'str' object has no attribute 'readlines'"),
     with_proc (add_event (EvOpen "hosts")) st) /\
  sessions_created (snd (session st)) = 0%nat.
Proof.
  repeat split; vm_compute; reflexivity.
Qed.

(** C10: [parse_hosts_file] turns the two blank lines of a file into two
    empty hostnames and an empty file into the empty list, yet with either
    file as [--hosts-file] the access to [session] raises [AttributeError]
    and constructs no [Session]. *)
Theorem C10_blank_hosts_file_constructs_no_session :
  let blank := configured (<["--hosts-file" := VStr "blank"]> (<["--host" := VList []]> sample_options)) in
  let empty := configured (<["--hosts-file" := VStr "empty"]> (<["--host" := VList []]> sample_options)) in
  parse_hosts_file (VFile (File "blank" blank_data)) = Ok [EmptyString; EmptyString] /\
  parse_hosts_file (VFile (File "empty" EmptyString)) = Ok [] /\
  fst (session blank) = Raise (AttributeError "'str' object has no attribute 'readlines'") /\
  fst (session empty) = Raise (AttributeError "'str' object has no attribute 'readlines'") /\
  sessions_created (snd (session blank)) = 0%nat /\
  sessions_created (snd (session empty)) = 0%nat.
Proof.
  repeat split; vm_compute; reflexivity.
Qed.

(** [parse_hosts_file] keeps every line: the result is as long as the list
    of lines. *)
Lemma parse_hosts_file_length (f : file) :
  exists hosts, parse_hosts_file (VFile f) = Ok hosts /\
                length hosts = length (PyStr.splitlines_keepends (f_data f)).
Proof.
  eexists. split; [apply parse_hosts_file_file | apply length_map].
Qed.

(** A line of whitespace only is stripped to the empty string. *)
Lemma strip_all_space (line : string) :
  PyStr.all_space line = true -> PyStr.strip line = EmptyString.
Proof.
  intros Hsp. unfold PyStr.strip.
  assert (Hl : PyStr.lstrip line = EmptyString).
  { induction line as [|c line IH]; [reflexivity|].
    simpl in *. apply andb_true_iff in Hsp as [Hc Hrest]. rewrite Hc. auto. }
  now rewrite Hl.
Qed.

(** C8 on the sample hosts file. *)
Lemma C8_witness :
  let st := configured (<["--hosts-file" := VStr "hosts"]> sample_options) in
  let e := AttributeError "'str' object has no attribute 'readlines'" in
  session st = (Raise e, with_proc (add_event (EvOpen "hosts")) st) /\
  Py.is_OSError_or_IOError e = false /\
  _session (self (snd (session st))) = None.
Proof.
  intros st.
  apply (C8_hosts_file_raises_AttributeError st
           (<["--hosts-file" := VStr "hosts"]> sample_options)
           (VList ["gamma"]) "hosts" hosts_data);
    try reflexivity.
  discriminate.
Defined.

(** C4 on a command line without hosts and on one naming a hosts file
    that does not exist; the last part spells out the record logged for
    the missing file. *)
Lemma C4_witness :
  let none := configured (<["--host" := VList []]> sample_options) in
  let missing := configured (<["--hosts-file" := VStr "nowhere"]> sample_options) in
  (session none
   = (Raise (SystemExit 1),
      logged_critical "missing one of (--host | --hosts-file) arguments" none) /\
   events (proc (snd (session none)))
   = (events (proc none)
        ++ [EvLog 50 "missing one of (--host | --hosts-file) arguments" None])%list /\
   no_session_constructed none (snd (session none)))
  /\
  (exists path msg,
     VStr "nowhere" = VStr path /\
     msg = "could not read hosts file "
             ++ String "034"%char
                  (path ++ String "034"%char
                             (": " ++ Py.exn_str
                                        (IOError "[Errno 2] No such file or directory: 'nowhere'"))) /\
     (exists before after, msg = before ++ path ++ after) /\
     session missing
     = (Raise (SystemExit 1),
        logged_critical msg (with_proc (add_event (EvOpen path)) missing)) /\
     events (proc (snd (session missing)))
     = (events (proc missing) ++ [EvOpen path; EvLog 50 msg None])%list /\
     no_session_constructed missing (snd (session missing)))
  /\
  events (proc (snd (session missing)))
  = [EvOpen "nowhere";
     EvLog 50
       ("could not read hosts file "
          ++ String "034"%char
               ("nowhere"
                  ++ String "034"%char
                       ": [Errno 2] No such file or directory: 'nowhere'"))
       None].
Proof.
  intros none missing. split; [|split].
  - apply (C4_session_exits_with_status_1 none
             (<["--host" := VList []]> sample_options) (VList []) VNone);
      reflexivity.
  - apply (C4_session_exits_with_status_1 missing
             (<["--hosts-file" := VStr "nowhere"]> sample_options)
             (VList ["gamma"]) (VStr "nowhere"));
      reflexivity.
  - reflexivity.
Defined.

(** ** [run] *)

(** C1 (as the code has it): an exception of the top-level command that
    derives from [Exception] is caught, logged (the message alone when it
    is an [LmiError] or tracing is disabled, the full traceback otherwise,
    a configuration still [None] counting as tracing enabled) and turned
    into exit code 1; an exception that does not derive from [Exception]
    ([SystemExit], [KeyboardInterrupt]) leaves [run]; a result is returned
    unchanged. *)
Theorem C1_run_maps_Exception_to_exit_code_1
    (TopLevelCommand_run : list string -> M value) (argv : list string) (st st1 : state) :
  (forall exc,
     TopLevelCommand_run argv st = (Raise exc, st1) ->
     Py.is_Exception exc = true ->
     run TopLevelCommand_run argv st
     = (Ok (VInt 1),
        with_proc
          (add_event (if (Py.is_LmiError exc || negb (tracing_enabled st1))%bool
                      then message_only exc
                      else full_traceback exc))
          st1))
  /\
  (forall exc,
     TopLevelCommand_run argv st = (Raise exc, st1) ->
     Py.is_Exception exc = false ->
     run TopLevelCommand_run argv st = (Raise exc, st1))
  /\
  (forall v,
     TopLevelCommand_run argv st = (Ok v, st1) ->
     run TopLevelCommand_run argv st = (Ok v, st1)).
Proof.
  unfold run, try_except. repeat split.
  - intros exc Hrun Hexc. rewrite Hrun, Hexc.
    unfold bind, gets, ret, LOG_error, LOG_exception, emit, modify, tracing_enabled,
      message_only, full_traceback.
    destruct (config (self st1)) as [c|]; simpl.
    + destruct (Py.is_LmiError exc || negb (Py.truthy (trace c)))%bool; reflexivity.
    + destruct (Py.is_LmiError exc || false)%bool; reflexivity.
  - intros exc Hrun Hexc. now rewrite Hrun, Hexc.
  - intros v Hrun. now rewrite Hrun.
Qed.

(** C1 on a command that fails with an [LmiError], one that exits and one
    that returns. *)
Lemma C1_witness :
  run failing_command [] started
  = (Ok (VInt 1),
     with_proc (add_event (message_only (LmiError "no such command")))
       (snd (failing_command [] started)))
  /\
  run exiting_command [] started
  = (Raise (SystemExit 1), snd (exiting_command [] started))
  /\
  run (fun _ => ret (VInt 0)) [] started = (Ok (VInt 0), started).
Proof.
  split; [|split].
  - apply (proj1 (C1_run_maps_Exception_to_exit_code_1 failing_command [] started
                      (snd (failing_command [] started))) (LmiError "no such command"));
      reflexivity.
  - apply (proj1 (proj2 (C1_run_maps_Exception_to_exit_code_1 exiting_command [] started
                             (snd (exiting_command [] started)))) (SystemExit 1));
      reflexivity.
  - apply (proj2 (proj2 (C1_run_maps_Exception_to_exit_code_1 (fun _ => ret (VInt 0)) []
                             started started)) (VInt 0)).
    reflexivity.
Defined.

(** C1 as stated fails: the command that finds no host raises
    [SystemExit] (from [sys.exit(1)] in [session]); [run] does not catch
    it and does not return 1. *)
Lemma C1_counterexample_SystemExit_propagates :
  fst (exiting_command [] started) = Raise (SystemExit 1) /\
  fst (run exiting_command [] started) = Raise (SystemExit 1) /\
  fst (run exiting_command [] started) <> Ok (VInt 1).
Proof.
  repeat split; try (vm_compute; reflexivity).
  vm_compute. discriminate.
Qed.

(** ** Relations kept by computations *)

Section Preserves.

Context (R : state -> state -> Prop) `{!PreOrder R}.

Lemma preserves_ret {A} (a : A) : preserves R (ret a).
Proof. intros st. simpl. reflexivity. Qed.

Lemma preserves_raise {A} (e : exn) : preserves R (@raise A e).
Proof. intros st. simpl. reflexivity. Qed.

Lemma preserves_lift {A} (r : result A) : preserves R (lift r).
Proof. intros st. simpl. reflexivity. Qed.

Lemma preserves_gets {A} (f : state -> A) : preserves R (gets f).
Proof. intros st. simpl. reflexivity. Qed.

Lemma preserves_bind {A B} (m : M A) (k : A -> M B) :
  preserves R m -> (forall a, preserves R (k a)) -> preserves R (bind m k).
Proof.
  intros Hm Hk st. unfold bind. specialize (Hm st).
  destruct (m st) as [[a|e] st1]; simpl in *; [|assumption].
  etransitivity; [exact Hm | apply Hk].
Qed.

Lemma preserves_try_except {A} (m : M A) (classes : exn -> bool) (handler : exn -> M A) :
  preserves R m -> (forall e, preserves R (handler e)) ->
  preserves R (try_except m classes handler).
Proof.
  intros Hm Hh st. unfold try_except. specialize (Hm st).
  destruct (m st) as [[a|e] st1]; simpl in *; [assumption|].
  destruct (classes e); [|assumption].
  etransitivity; [exact Hm | apply Hh].
Qed.

Lemma preserves_for_each {A} (l : list A) (body : A -> M unit) :
  (forall x, preserves R (body x)) -> preserves R (for_each l body).
Proof.
  intros Hbody. induction l as [|x l IH]; simpl.
  - apply preserves_ret.
  - apply preserves_bind; auto.
Qed.

Lemma preserves_getitem (d : gmap string value) (key : string) :
  preserves R (getitem d key).
Proof.
  unfold getitem. destruct (d !! key); [apply preserves_ret | apply preserves_raise].
Qed.

Lemma preserves_delitem (d : gmap string value) (key : string) :
  preserves R (delitem d key).
Proof.
  unfold delitem. destruct (d !! key); [apply preserves_ret | apply preserves_raise].
Qed.

Lemma preserves_self_options (key : string) : preserves R (self_options key).
Proof.
  unfold self_options. apply preserves_bind; [apply preserves_gets|].
  intros [d|]; [apply preserves_getitem | apply preserves_raise].
Qed.

Lemma preserves_self_config (attr : string) : preserves R (self_config attr).
Proof.
  unfold self_config. apply preserves_bind; [apply preserves_gets|].
  intros [c|]; [apply preserves_ret | apply preserves_raise].
Qed.

End Preserves.

(** Take a computation apart along its structure; what remains are the
    state changes themselves. *)
Ltac preserves_step :=
  first
    [ apply preserves_ret; typeclasses eauto
    | apply preserves_raise; typeclasses eauto
    | apply preserves_lift; typeclasses eauto
    | apply preserves_gets; typeclasses eauto
    | apply preserves_getitem; typeclasses eauto
    | apply preserves_delitem; typeclasses eauto
    | apply preserves_self_options; typeclasses eauto
    | apply preserves_self_config; typeclasses eauto
    | apply preserves_bind; [typeclasses eauto | | intros ?]
    | apply preserves_try_except; [typeclasses eauto | | intros ?]
    | apply preserves_for_each; [typeclasses eauto | intros ?] ].

Ltac preserves_cases :=
  match goal with
  | |- preserves _ (match ?x with _ => _ end) => destruct x
  | |- preserves _ (let '(_, _) := ?x in _) => destruct x
  end.

Ltac preserves_tac := repeat first [ preserves_step | preserves_cases | progress cbv zeta ].

#[local] Instance logging_only_preorder : PreOrder logging_only.
Proof.
  split.
  - intros st. unfold logging_only. destruct st as [p a]; destruct a; simpl.
    repeat split. exists []. now rewrite app_nil_r.
  - intros st1 st2 st3 (Ha & Hf & Hc & Hn & evs & He & Hl)
                       (Ha' & Hf' & Hc' & Hn' & evs' & He' & Hl').
    unfold logging_only. repeat split; try congruence.
    + rewrite Ha', Ha. destruct (self st1); reflexivity.
    + exists (evs ++ evs')%list. rewrite He', He, <- app_assoc. split; [reflexivity|].
      rewrite forallb_app, Hl, Hl'. reflexivity.
Qed.

Lemma logging_only_emit (e : event) :
  is_logging_event e = true -> preserves logging_only (emit e).
Proof.
  intros He st. unfold logging_only. destruct st as [p a]; destruct a; simpl.
  repeat split. exists [e]. simpl. now rewrite He.
Qed.

Lemma logging_only_set_root_logger (f : process -> logging.Logger) :
  preserves logging_only (modify (with_proc (fun p => set_root_logger (f p) p))).
Proof.
  intros st. unfold logging_only. destruct st as [p a]; destruct a; simpl.
  repeat split. exists []. now rewrite app_nil_r.
Qed.

Lemma logging_only_set_stdout (s : logging.stream) :
  preserves logging_only (modify (with_self (set_stdout s))).
Proof.
  intros st. unfold logging_only. destruct st as [p a]; destruct a; simpl.
  repeat split. exists []. now rewrite app_nil_r.
Qed.

(** [_configure_logging] touches nothing but the logging setup, whether it
    returns or raises. *)
Lemma _configure_logging_logging_only (X : Externals) :
  preserves logging_only (_configure_logging X).
Proof.
  unfold _configure_logging, new_FileHandler, root_addHandler, root_removeHandler,
    root_setLevel.
  preserves_tac;
    first [ apply logging_only_emit; reflexivity
          | apply logging_only_set_root_logger
          | apply logging_only_set_stdout ].
Qed.

(** ** [_configure_logging] *)

Lemma for_each_removeHandler (hs : list logging.Handler) (st : state) :
  for_each hs root_removeHandler st = (Ok tt, with_proc (handlers_removed hs) st).
Proof.
  revert st. induction hs as [|h hs IH]; intros st.
  - simpl. unfold ret. f_equal. destruct st as [p a]; destruct p.
    unfold with_proc, handlers_removed. simpl. now rewrite app_nil_r.
  - cbn [for_each]. unfold bind at 1.
    change (root_removeHandler h st)
      with (Ok tt,
            with_proc (fun p => set_root_logger (logging.removeHandler h (root_logger p)) p)
              (with_proc (add_event (EvRemoveHandler h)) st)).
    cbv beta iota. rewrite IH. f_equal. destruct st as [p a]; destruct p.
    unfold with_proc, handlers_removed. simpl. now rewrite <- app_assoc.
Qed.

Lemma removeHandler_fold (hs : list logging.Handler) (lg : logging.Logger) :
  fold_left (fun lg h => logging.removeHandler h lg) hs lg
  = {| logging.handlers := fold_left (fun l h => logging.list_remove h l) hs (logging.handlers lg);
       logging.level := logging.level lg |}.
Proof.
  revert lg. induction hs as [|h hs IH]; intros lg; simpl.
  - now destruct lg.
  - now rewrite IH.
Qed.

(** Removing null handlers leaves a handler of another class in front
    where it is. *)
Lemma list_remove_nulls_cons (hs : list logging.Handler) (x : logging.Handler)
    (l : list logging.Handler) :
  Forall (fun h => logging.is_NullHandler h = true) hs ->
  logging.is_NullHandler x = false ->
  fold_left (fun l h => logging.list_remove h l) hs (x :: l)
  = x :: fold_left (fun l h => logging.list_remove h l) hs l.
Proof.
  intros Hhs Hx. revert l. induction Hhs as [|h hs Hh _ IH]; intros l; simpl; [reflexivity|].
  destruct (decide (x = h)) as [->|_]; [congruence|]. apply IH.
Qed.

(** Removing, one by one, the null handlers found in the list removes all
    of them and nothing else; what was appended in the meantime stays. *)
Lemma list_remove_null_handlers (l extra : list logging.Handler) :
  fold_left (fun l h => logging.list_remove h l)
    (List.filter logging.is_NullHandler l) (l ++ extra)%list
  = (List.filter not_NullHandler l ++ extra)%list.
Proof.
  induction l as [|x l IH]; simpl.
  - reflexivity.
  - unfold not_NullHandler at 1. destruct (logging.is_NullHandler x) eqn:Hx; simpl.
    + rewrite decide_True by reflexivity. exact IH.
    + rewrite list_remove_nulls_cons; [now rewrite IH | | assumption].
      apply List.Forall_forall. intros h Hh. apply filter_In in Hh. tauto.
Qed.

Lemma getattr_not_KeyError (name : string) (e : exn) :
  logging.getattr name = Raise e -> is_KeyError e = false.
Proof.
  unfold logging.getattr.
  repeat match goal with
         | |- context [if ?b then _ else _] => destruct b; [discriminate|]
         end.
  now intros [= <-].
Qed.

(** [logging.getattr] returns a string only for [BASIC_FORMAT], which is not
    the name of a level. *)
Lemma getattr_LStr (name s : string) :
  logging.getattr name = Ok (logging.LStr s) -> logging._levelNames s = None.
Proof.
  unfold logging.getattr.
  repeat match goal with
         | |- context [if ?b then _ else _] => destruct b; [discriminate || (now intros [= <-])|]
         end.
  discriminate.
Qed.

Lemma dict_get_cases (d : gmap Z Z) (key : value) (default cl : logging.level_obj) :
  dict_get d key default = Ok cl -> (exists n, cl = logging.LInt n) \/ cl = default.
Proof.
  unfold dict_get. destruct key as [|b|n|s|l|f]; try discriminate; intros [= <-]; auto.
  - destruct (d !! (if b then 1 else 0)); eauto.
  - destruct (d !! n); eauto.
Qed.

(** The level given to the root logger, [min(logging_level, console_level)],
    is the minimum of the configured level and the level the console
    handler ended up with. *)
Lemma root_level_is_min (name : string) (d : gmap Z Z) (key : value) (to_file : bool)
    (ll cl : logging.level_obj) (a a0 : Z) :
  logging.getattr name = Ok ll ->
  dict_get d key (if to_file then logging.LInt logging.ERROR else ll) = Ok cl ->
  logging._checkLevel cl = Ok a ->
  logging._checkLevel (logging.min ll cl) = Ok a0 ->
  logging.LInt a0 = logging.min ll (logging.LInt a) /\
  (forall n, ll = logging.LInt n -> a0 = Z.min n a).
Proof.
  intros Hll Hcl Ha Ha0.
  assert (Hint : cl = logging.LInt a).
  { destruct cl as [n|s]; [now injection Ha as ->|].
    apply dict_get_cases in Hcl as [[n Hn]|Hdef]; [discriminate Hn|].
    destruct to_file; [discriminate Hdef|]. subst ll.
    apply getattr_LStr in Hll. unfold logging._checkLevel in Ha.
    rewrite Hll in Ha. discriminate Ha. }
  subst cl. split.
  - unfold logging.min, logging.lt in *. destruct ll as [n|s].
    + destruct (Z.ltb a n); now injection Ha0 as ->.
    + now injection Ha0 as ->.
  - intros n ->. unfold logging.min, logging.lt in Ha0.
    destruct (Z.ltb_spec a n); injection Ha0 as <-; lia.
Qed.

(** The handlers of the root logger at the end: no null handler among
    them, and a file handler only if one was there or one was added. *)
Lemma handlers_after_spec (before added : list logging.Handler) (console : logging.Handler) :
  Forall (fun h => logging.is_NullHandler h = false) added ->
  logging.is_NullHandler console = false ->
  logging.is_FileHandler console = false ->
  let after := (List.filter not_NullHandler before ++ added ++ [console])%list in
  Forall (fun h => logging.is_NullHandler h = false) after /\
  (Forall (fun h => logging.is_FileHandler h = false) before ->
   (Exists (fun h => logging.is_FileHandler h = true) after
    <-> Exists (fun h => logging.is_FileHandler h = true) added)).
Proof.
  intros Hadded Hnull Hfile after. subst after. split.
  - apply Forall_app. split; [|apply Forall_app; split; [assumption | now constructor]].
    apply List.Forall_forall. intros h Hh. apply filter_In in Hh as [_ Hh].
    unfold not_NullHandler in Hh. now apply negb_true_iff.
  - intros Hbefore. rewrite !Exists_app. split; [|tauto].
    intros [Hex|[Hex|Hex]]; [exfalso | assumption | exfalso].
    + apply List.Exists_exists in Hex as (h & Hin & Hh). apply filter_In in Hin as [Hin _].
      rewrite List.Forall_forall in Hbefore. specialize (Hbefore h Hin). congruence.
    + inversion Hex as [? ? Hh|? ? Hh]; subst; [congruence | inversion Hh].
Qed.

(** Follow a run of [_configure_logging] that returned: [Hrun] ends up
    equating the state the code computes with the final state. *)
Ltac exec_configure_logging X st Hrun :=
  open_state st;
  unfold _configure_logging in Hrun;
  unfold self_config, new_FileHandler, root_addHandler, root_setLevel, emit, modify, gets,
    lift, try_except, bind, ret, raise in Hrun;
  simpl in Hrun;
  match type of Hrun with
  | context [match ?cfg with Some _ => _ | None => _ end] =>
      destruct cfg as [c|]; [|discriminate Hrun]
  end;
  simpl in Hrun;
  match type of Hrun with
  | context [logging.getattr ?name] =>
      destruct (logging.getattr name) as [ll|e] eqn:Hll;
      [|rewrite (getattr_not_KeyError _ _ Hll) in Hrun; discriminate Hrun]
  end;
  repeat (simpl in Hrun;
          match type of Hrun with
          | context [match get_safe ?c ?a ?b with _ => _ end] =>
              destruct (get_safe c a b) as [filename|] eqn:Hfile
          | context [String.eqb ?a ?b] => destruct (String.eqb a b) eqn:?
          | context [match ?m !! ?k with _ => _ end] => destruct (m !! k) as [[?|?]|] eqn:?
          | context [match dict_get ?a ?b ?d with _ => _ end] =>
              destruct (dict_get a b d) as [console_level|] eqn:Hconsole
          | context [match logging._checkLevel ?a with _ => _ end] =>
              destruct (logging._checkLevel a) eqn:?
          | context [for_each ?l root_removeHandler ?s] =>
              rewrite for_each_removeHandler in Hrun
          | context [if silent ?X ?c then _ else _] => destruct (silent X c)
          end;
          try discriminate Hrun);
  injection Hrun as <-; simpl.

(** C6: after [_configure_logging] has run, the root logger has a console
    [StreamHandler] writing to [self.stderr]; the call adds a [FileHandler]
    exactly when [[Log] OutputFile] is set (so the logger has one exactly
    then, if it had none before); no [NullHandler] is left; and the level
    of the root logger is the minimum of the configured logging level and
    the level of the console handler. *)
Theorem C6_configure_logging_installs_handlers (X : Externals) (st st' : state) :
  _configure_logging X st = (Ok tt, st') ->
  let before := logging.handlers (root_logger (proc st)) in
  let after := logging.handlers (root_logger (proc st')) in
  exists (c : Configuration) (configured_level : logging.level_obj)
         (console : logging.Handler) (added : list logging.Handler),
    config (self st) = Some c /\
    logging.getattr (PyStr.upper (logging_level c)) = Ok configured_level /\
    after = (List.filter not_NullHandler before ++ added ++ [console])%list /\
    logging.h_class console = logging.StreamHandler (stderr (self st)) /\
    match get_safe c "Log" "OutputFile" with
    | Some filename =>
        exists file_handler,
          added = [file_handler] /\
          logging.h_class file_handler = logging.FileHandler filename
    | None => added = []
    end /\
    (Forall (fun h => logging.is_FileHandler h = false) before ->
     (Exists (fun h => logging.is_FileHandler h = true) after
      <-> is_Some (get_safe c "Log" "OutputFile"))) /\
    Forall (fun h => logging.is_NullHandler h = false) after /\
    logging.LInt (logging.level (root_logger (proc st')))
    = logging.min configured_level (logging.LInt (logging.h_level console)) /\
    (forall n, configured_level = logging.LInt n ->
               logging.level (root_logger (proc st')) = Z.min n (logging.h_level console)).
Proof.
  intros Hrun. exec_configure_logging X st Hrun.
  all: rewrite removeHandler_fold; simpl.
  all: rewrite <- ?app_assoc, list_remove_null_handlers.
  all: match goal with
       | Ha : logging._checkLevel ?cl = Ok ?a,
         Ha0 : logging._checkLevel (logging.min ?l ?cl) = Ok ?a0 |- _ =>
           first
             [ destruct (root_level_is_min _ _ _ _ _ _ _ _ Hll Hconsole Ha Ha0)
                 as [Hmin HminZ]
             | destruct (root_level_is_min _ _ _ false _ _ _ _ Hll Hconsole Ha Ha0)
                 as [Hmin HminZ]
             | destruct (root_level_is_min _ _ _ true _ _ _ _ Hll Hconsole Ha Ha0)
                 as [Hmin HminZ] ]
       end.
  all: match goal with
       | |- context [(List.filter not_NullHandler ?before ++ ?added ++ [?console])%list] =>
           destruct (handlers_after_spec before added console) as [Hnull Hfiles];
           [ repeat constructor | reflexivity | reflexivity | ];
           exists c, ll, console, added
       | |- context [(List.filter not_NullHandler ?before ++ [?console])%list] =>
           destruct (handlers_after_spec before [] console) as [Hnull Hfiles];
           [ repeat constructor | reflexivity | reflexivity | ];
           exists c, ll, console, []
       end.
  all: simpl in Hnull, Hfiles; rewrite Hfile.
  all: split; [reflexivity|]; split; [exact Hll|]; split; [reflexivity|];
    split; [reflexivity|]; split; [eauto|];
    split; [|split; [exact Hnull | split; [exact Hmin | exact HminZ]]].
  all: intros Hbefore; etransitivity; [exact (Hfiles Hbefore)|].
  all: split; intros Hex.
  all: first [ now (destruct Hex as [x Hx]; discriminate Hx)
             | now inversion Hex
             | now eexists
             | now (constructor; reflexivity) ].
Qed.

(** C6 on a configuration without and one with a log file. *)
Lemma C6_witness :
  let check (st : state) :=
    let st' := snd (_configure_logging sample_externals st) in
    let before := logging.handlers (root_logger (proc st)) in
    let after := logging.handlers (root_logger (proc st')) in
    exists (c : Configuration) (configured_level : logging.level_obj)
           (console : logging.Handler) (added : list logging.Handler),
      config (self st) = Some c /\
      logging.getattr (PyStr.upper (logging_level c)) = Ok configured_level /\
      after = (List.filter not_NullHandler before ++ added ++ [console])%list /\
      logging.h_class console = logging.StreamHandler (stderr (self st)) /\
      match get_safe c "Log" "OutputFile" with
      | Some filename =>
          exists file_handler,
            added = [file_handler] /\
            logging.h_class file_handler = logging.FileHandler filename
      | None => added = []
      end /\
      (Forall (fun h => logging.is_FileHandler h = false) before ->
       (Exists (fun h => logging.is_FileHandler h = true) after
        <-> is_Some (get_safe c "Log" "OutputFile"))) /\
      Forall (fun h => logging.is_NullHandler h = false) after /\
      logging.LInt (logging.level (root_logger (proc st')))
      = logging.min configured_level (logging.LInt (logging.h_level console)) /\
      (forall n, configured_level = logging.LInt n ->
                 logging.level (root_logger (proc st')) = Z.min n (logging.h_level console)) in
  check (ready (sample_Configuration None)) /\ check (ready logging_to_file).
Proof.
  split.
  - apply (C6_configure_logging_installs_handlers sample_externals
             (ready (sample_Configuration None))).
    reflexivity.
  - apply (C6_configure_logging_installs_handlers sample_externals (ready logging_to_file)).
    reflexivity.
Defined.

(** ** [setup] *)

(** C5: for a docopt dictionary, [setup] obtains the configuration
    singleton (passing the [--config-file] path when the option is given),
    sets its [trace] from [--trace] and its [verbosity] to [OUTPUT_SILENT]
    for [--quiet], else to the [-v] count when that is positive, else
    leaves it; when [setup] returns, the options it stores contain neither
    [--quiet] nor [-v]. *)
Theorem C5_setup_populates_configuration
    (X : Externals) (options : gmap string value) (st : state) (cf quiet v : value) :
  options !! "--config-file" = Some cf ->
  options !! "--quiet" = Some quiet ->
  options !! "-v" = Some v ->
  let user_config := if Py.truthy cf then Some cf else None in
  let instance := match Configuration_instance (proc st) with
                  | Some c => c
                  | None => new_Configuration X user_config
                  end in
  let st' := snd (setup X options st) in
  exists (c : Configuration) (evs : list event),
    events (proc st') = (events (proc st) ++ EvGetInstance user_config :: evs)%list /\
    config (self st') = Some c /\
    Configuration_instance (proc st') = Some c /\
    c = set_verbosity (requested_verbosity X quiet v (verbosity instance))
          (set_trace (default (VBool false) (options !! "--trace")) instance) /\
    trace c = default (VBool false) (options !! "--trace") /\
    verbosity c = requested_verbosity X quiet v (verbosity instance) /\
    (fst (setup X options st) = Ok tt ->
     exists stored,
       _options (self st') = Some stored /\
       stored !! "--quiet" = None /\
       stored !! "-v" = None /\
       stored = delete "-v"
                  (delete "--quiet"
                     (delete "--trace"
                        (if Py.truthy cf then delete "--config-file" options else options)))).
Proof.
  intros Hcf Hquiet Hv user_config instance st'.
  subst user_config instance st'.
  destruct (setup X options st) as [r st'] eqn:Hrun. simpl.
  open_state st.
  unfold setup, get_instance, pop_default in Hrun. unfold_M.
  repeat (simpl in Hrun; rewrite ?lookup_delete_ne in Hrun by done;
          first
            [ rewrite Hcf in Hrun | rewrite Hquiet in Hrun | rewrite Hv in Hrun
            | match type of Hrun with
              | context [Py.truthy ?x] => destruct (Py.truthy x) eqn:?
              | context [Py.gt0 ?x] => destruct (Py.gt0 x) eqn:?
              | context [match ?o with Some _ => _ | None => _ end] =>
                  destruct o eqn:?
              | context [_configure_logging X ?s] =>
                  pose proof (_configure_logging_logging_only X s) as Hframe;
                  destruct (_configure_logging X s) as [[[]|?] ?]
              end ]).
  all: injection Hrun as <- <-.
  all: destruct Hframe as (Hself & _ & Hci & _ & evs & Hev & _);
    apply (f_equal config) in Hself; simpl in Hself, Hci, Hev.
  all: unfold requested_verbosity;
    repeat match goal with
           | H : Py.truthy _ = _ |- _ => rewrite H
           | H : Py.gt0 _ = _ |- _ => rewrite H
           end.
  all: eexists _, _; simpl; rewrite Hself, Hci, Hev; simpl.
  all: split; [rewrite <- !app_assoc; simpl; reflexivity|].
  all: repeat (split; [reflexivity|]).
  all: intros Hok; try discriminate Hok.
  all: eexists; split; [reflexivity|].
  all: split; [rewrite lookup_delete_ne by done; apply lookup_delete_eq|].
  all: split; [apply lookup_delete_eq|].
  all: first
         [ reflexivity
         | rewrite (delete_id _ "--trace");
           [reflexivity | rewrite ?lookup_delete_ne by done; assumption] ].
Qed.

(** C5 on the sample options and on options with [--config-file] and
    [-v -v]. *)
Lemma C5_witness :
  let check (options : gmap string value) (cf quiet v : value) :=
    let user_config := if Py.truthy cf then Some cf else None in
    let instance := sample_Configuration user_config in
    let st' := snd (setup sample_externals options started) in
    exists (c : Configuration) (evs : list event),
      events (proc st') = (events (proc started) ++ EvGetInstance user_config :: evs)%list /\
      config (self st') = Some c /\
      Configuration_instance (proc st') = Some c /\
      c = set_verbosity (requested_verbosity sample_externals quiet v (verbosity instance))
            (set_trace (default (VBool false) (options !! "--trace")) instance) /\
      trace c = default (VBool false) (options !! "--trace") /\
      verbosity c = requested_verbosity sample_externals quiet v (verbosity instance) /\
      (fst (setup sample_externals options started) = Ok tt ->
       exists stored,
         _options (self st') = Some stored /\
         stored !! "--quiet" = None /\
         stored !! "-v" = None /\
         stored = delete "-v"
                    (delete "--quiet"
                       (delete "--trace"
                          (if Py.truthy cf then delete "--config-file" options else options)))) in
  check sample_options VNone (VBool false) (VInt 0) /\
  check (<["--config-file" := VStr "lmi.conf"]> (<["-v" := VInt 2]> sample_options))
    (VStr "lmi.conf") (VBool false) (VInt 2).
Proof.
  split.
  - apply (C5_setup_populates_configuration sample_externals sample_options started
             VNone (VBool false) (VInt 0)); reflexivity.
  - apply (C5_setup_populates_configuration sample_externals
             (<["--config-file" := VStr "lmi.conf"]> (<["-v" := VInt 2]> sample_options))
             started (VStr "lmi.conf") (VBool false) (VInt 2)); reflexivity.
Defined.

(** ** Memoized properties *)

#[local] Instance objects_kept_preorder : PreOrder objects_kept.
Proof.
  split.
  - intros st. unfold objects_kept. auto.
  - intros st1 st2 st3 (? & ? & ? & ?) (? & ? & ? & ?).
    unfold objects_kept. repeat split; congruence.
Qed.

Lemma objects_kept_emit (e : event) :
  is_EvNewSession e = false -> is_EvNewCommandManager e = false ->
  preserves objects_kept (emit e).
Proof.
  intros Hs Hm st. destruct st as [[] []].
  unfold objects_kept, managers_created, sessions_created. simpl.
  rewrite !List.filter_app. simpl. rewrite Hs, Hm. now rewrite !app_nil_r.
Qed.

Lemma objects_kept_modify_proc (f : process -> process) :
  (forall p, events (f p) = events p) ->
  preserves objects_kept (modify (with_proc f)).
Proof.
  intros Hf st. destruct st as [p a].
  unfold objects_kept, managers_created, sessions_created. simpl. now rewrite Hf.
Qed.

Lemma objects_kept_modify_self (f : MetaCommand -> MetaCommand) :
  (forall a, _command_manager (f a) = _command_manager a /\ _session (f a) = _session a) ->
  preserves objects_kept (modify (with_self f)).
Proof.
  intros Hf st. destruct st as [p a]. destruct (Hf a) as [Hm Hs].
  unfold objects_kept, managers_created, sessions_created. simpl. auto.
Qed.

Ltac kept_leaf :=
  first
    [ apply objects_kept_emit; reflexivity
    | apply objects_kept_modify_proc; intros []; reflexivity
    | apply objects_kept_modify_self; intros []; split; reflexivity ].

Lemma _configure_logging_objects_kept (X : Externals) :
  preserves objects_kept (_configure_logging X).
Proof.
  unfold _configure_logging, new_FileHandler, root_addHandler, root_removeHandler,
    root_setLevel.
  preserves_tac; kept_leaf.
Qed.

Lemma setup_objects_kept (X : Externals) (options : gmap string value) :
  preserves objects_kept (setup X options).
Proof.
  unfold setup, get_instance, self_config_update.
  repeat first [ apply _configure_logging_objects_kept
               | preserves_step | preserves_cases | progress cbv zeta ];
    kept_leaf.
Qed.

Lemma command_manager_memoized (X : Externals) (st : state) (m : CommandManager) :
  _command_manager (self st) = Some m -> command_manager X st = (Ok m, st).
Proof.
  intros Hm. unfold command_manager, bind, gets, ret. simpl. now rewrite Hm.
Qed.

(** The first access constructs the manager, registers [help] and stores
    the object. *)
Lemma command_manager_constructs (X : Externals) (st : state) :
  _command_manager (self st) = None ->
  exists m st',
    command_manager X st = (Ok m, st') /\
    commands m !! "help" = Some "Help" /\
    cm_id m = next_id (proc st) /\
    _command_manager (self st') = Some m /\
    _session (self st') = _session (self st) /\
    managers_created st' = S (managers_created st) /\
    sessions_created st' = sessions_created st.
Proof.
  intros Hm. open_state st. unfold command_manager. unfold_M. simpl.
  eexists _, _. split; [reflexivity|]. simpl.
  split; [apply lookup_insert_eq|]. repeat split.
  - unfold managers_created. simpl. rewrite List.filter_app, length_app. simpl. lia.
  - unfold sessions_created. simpl. rewrite List.filter_app. simpl. now rewrite app_nil_r.
Qed.

(** A first access to [session] that raises leaves both objects as they
    were. *)
Lemma session_raise_objects_kept (st st' : state) (e : exn) :
  session st = (Raise e, st') -> objects_kept st st'.
Proof.
  intros Hrun. destruct (_session (self st)) as [s|] eqn:Hs.
  { rewrite (session_memoized st s Hs) in Hrun. discriminate Hrun. }
  open_state st. unfold session in Hrun. unfold_M. simpl in Hrun.
  destruct _options0 as [opts|].
  2: { injection Hrun as <- <-. reflexivity. }
  case_exec Hrun.
  all: try (injection Hrun as <- <-).
  all: unfold objects_kept, managers_created, sessions_created; simpl;
    rewrite ?List.filter_app; simpl; rewrite ?app_nil_r; auto.
Qed.

Lemma session_stored_spec (st : state) (s : Session) :
  _session (self (session_stored s st)) = Some s /\
  _command_manager (self (session_stored s st)) = _command_manager (self st) /\
  sessions_created (session_stored s st) = S (sessions_created st) /\
  managers_created (session_stored s st) = managers_created st.
Proof.
  destruct st as [[] []]. unfold session_stored, sessions_created, managers_created. simpl.
  rewrite !List.filter_app, length_app. simpl. rewrite app_nil_r. repeat split. lia.
Qed.

Lemma memo_inv_objects_kept (m0 s0 : nat) (st st' : state) :
  objects_kept st st' -> memo_inv m0 s0 st -> memo_inv m0 s0 st'.
Proof.
  intros (Hm & Hs & Hcm & Hcs) Hinv. unfold memo_inv in *.
  now rewrite Hm, Hs, Hcm, Hcs.
Qed.

Lemma memo_inv_perform (X : Externals) (m0 s0 : nat) (c : call) (st : state) :
  memo_inv m0 s0 st -> memo_inv m0 s0 (perform X c st).
Proof.
  intros Hinv. destruct c as [| |options|]; simpl.
  - destruct (_command_manager (self st)) as [m|] eqn:Hm.
    + now rewrite (command_manager_memoized X st m Hm).
    + destruct (command_manager_constructs X st Hm)
        as (m & st' & Hrun & Hhelp & _ & Hm' & Hs' & Hcm & Hcs).
      rewrite Hrun. simpl. unfold memo_inv in *.
      rewrite Hm in Hinv. rewrite Hm', Hs', Hcm, Hcs.
      destruct Hinv as [-> Hsess]. auto.
  - destruct (_session (self st)) as [s|] eqn:Hs.
    + now rewrite (session_memoized st s Hs).
    + destruct (session st) as [[s|e] st'] eqn:Hrun; simpl.
      * destruct (session_constructs st st' s Hs Hrun)
          as (? & ? & ? & ? & _ & _ & _ & _ & _ & _ & _ & _ & ->).
        destruct (session_stored_spec st s) as (Hs' & Hm' & Hcs & Hcm).
        unfold memo_inv in *. rewrite Hs in Hinv. rewrite Hs', Hm', Hcs, Hcm.
        destruct Hinv as [Hman ->]. auto.
      * eapply memo_inv_objects_kept; [|exact Hinv].
        eapply session_raise_objects_kept. exact Hrun.
  - eapply memo_inv_objects_kept; [|exact Hinv]. apply setup_objects_kept.
  - eapply memo_inv_objects_kept; [|exact Hinv]. apply _configure_logging_objects_kept.
Qed.

Lemma memo_inv_after_calls (X : Externals) (m0 s0 : nat) (calls : list call) (st : state) :
  memo_inv m0 s0 st -> memo_inv m0 s0 (after_calls X calls st).
Proof.
  revert st. induction calls as [|c calls IH]; intros st Hinv; simpl; [assumption|].
  apply IH. now apply memo_inv_perform.
Qed.

Lemma memo_inv_new (p : process) :
  memo_inv (managers_created (new_MetaCommand p)) (sessions_created (new_MetaCommand p))
    (new_MetaCommand p).
Proof. split; reflexivity. Qed.

(** Once stored, an object stays the stored object whatever is called. *)
Lemma stored_objects_stay (X : Externals) (calls : list call) (st : state) :
  (forall m, _command_manager (self st) = Some m ->
             _command_manager (self (after_calls X calls st)) = Some m) /\
  (forall s, _session (self st) = Some s ->
             _session (self (after_calls X calls st)) = Some s).
Proof.
  revert st. induction calls as [|c calls IH]; intros st; simpl; [auto|].
  assert (Hstep : (forall m, _command_manager (self st) = Some m ->
                             _command_manager (self (perform X c st)) = Some m) /\
                  (forall s, _session (self st) = Some s ->
                             _session (self (perform X c st)) = Some s)).
  { destruct c as [| |options|]; simpl.
    - split.
      + intros m Hm. now rewrite (command_manager_memoized X st m Hm).
      + intros s Hs. destruct (_command_manager (self st)) as [m|] eqn:Hm.
        * now rewrite (command_manager_memoized X st m Hm).
        * destruct (command_manager_constructs X st Hm)
            as (m & st' & Hrun & _ & _ & _ & Hs' & _).
          rewrite Hrun. simpl. congruence.
    - destruct (_session (self st)) as [s0|] eqn:Hs0.
      + rewrite (session_memoized st s0 Hs0). simpl. split; congruence.
      + split; [|discriminate]. intros m Hm.
        destruct (session st) as [[s|e] st'] eqn:Hrun; simpl.
        * destruct (session_constructs st st' s Hs0 Hrun)
            as (? & ? & ? & ? & _ & _ & _ & _ & _ & _ & _ & _ & ->).
          destruct (session_stored_spec st s) as (_ & Hm' & _). congruence.
        * destruct (session_raise_objects_kept st st' e Hrun) as (Hm' & _). congruence.
    - destruct (setup_objects_kept X options st) as (Hm & Hs & _).
      split; intros; congruence.
    - destruct (_configure_logging_objects_kept X st) as (Hm & Hs & _).
      split; intros; congruence. }
  destruct Hstep as [Hm Hs]. destruct (IH (perform X c st)) as [IHm IHs].
  split; auto.
Qed.

(** C9: [command_manager] and [session] are memoized.  However a new
    [MetaCommand] is used, each object is constructed at most once; an
    access to [command_manager] returns a manager that has the [help]
    command, and every later access returns that object and leaves the
    state alone; the same holds for [session] once an access returned. *)
Theorem C9_lazy_objects_are_memoized (X : Externals) (p : process) (calls : list call) :
  let st0 := new_MetaCommand p in
  let st := after_calls X calls st0 in
  (managers_created st <= managers_created st0 + 1)%nat /\
  (sessions_created st <= sessions_created st0 + 1)%nat /\
  (exists m,
     fst (command_manager X st) = Ok m /\
     commands m !! "help" = Some "Help" /\
     forall later,
       let st' := after_calls X later (snd (command_manager X st)) in
       command_manager X st' = (Ok m, st')) /\
  (forall s,
     fst (session st) = Ok s ->
     forall later,
       let st' := after_calls X later (snd (session st)) in
       session st' = (Ok s, st')).
Proof.
  intros st0 st.
  pose proof (memo_inv_after_calls X _ _ calls st0 (memo_inv_new p)) as Hinv.
  fold st in Hinv. fold st0 in Hinv.
  split; [|split; [|split]].
  - destruct Hinv as [Hman _]. destruct (_command_manager (self st)); lia.
  - destruct Hinv as [_ Hsess]. destruct (_session (self st)); lia.
  - assert (Hfirst : exists m, fst (command_manager X st) = Ok m /\
                               commands m !! "help" = Some "Help" /\
                               _command_manager (self (snd (command_manager X st))) = Some m).
    { destruct (_command_manager (self st)) as [m|] eqn:Hm.
      - exists m. rewrite (command_manager_memoized X st m Hm). simpl.
        destruct Hinv as [Hman _]. rewrite Hm in Hman. tauto.
      - destruct (command_manager_constructs X st Hm)
          as (m & st' & Hrun & Hhelp & _ & Hm' & _).
        exists m. rewrite Hrun. auto. }
    destruct Hfirst as (m & Hok & Hhelp & Hstored).
    exists m. split; [assumption|]. split; [assumption|].
    intros later st'. apply command_manager_memoized.
    now apply stored_objects_stay.
  - intros s Hok later st'. apply session_memoized.
    apply stored_objects_stay.
    destruct (_session (self st)) as [s0|] eqn:Hs0.
    + rewrite (session_memoized st s0 Hs0) in *. simpl in *. congruence.
    + destruct (session st) as [[s1|e] st1] eqn:Hrun; simpl in *; [|discriminate Hok].
      injection Hok as ->.
      destruct (session_constructs st st1 s Hs0 Hrun)
        as (? & ? & ? & ? & _ & _ & _ & _ & _ & _ & _ & _ & ->).
      apply session_stored_spec.
Qed.

(** ** The order of the steps *)

Lemma between_refl (lo hi : nat) (st : state) : between lo hi st st.
Proof.
  exists []. rewrite app_nil_r. repeat split; constructor.
Qed.

Lemma between_trans (lo mid hi : nat) (st1 st2 st3 : state) :
  (lo <= mid <= hi)%nat ->
  between lo mid st1 st2 -> between mid hi st2 st3 -> between lo hi st1 st3.
Proof.
  intros Hmid (evs1 & He1 & Ho1 & Hb1) (evs2 & He2 & Ho2 & Hb2).
  exists (evs1 ++ evs2)%list. rewrite He2, He1, <- app_assoc.
  unfold in_order, phases in *. rewrite omap_app. repeat split.
  - apply StronglySorted_app_2; [|assumption..].
    intros x1 x2 Hx1 Hx2.
    rewrite Forall_forall in Hb1, Hb2.
    specialize (Hb1 x1 Hx1). specialize (Hb2 x2 Hx2). unfold Nat.le. lia.
  - apply Forall_app. split; (eapply Forall_impl; [eassumption|]); simpl; lia.
Qed.

Lemma between_weaken (lo hi lo' hi' : nat) (st st' : state) :
  (lo' <= lo)%nat -> (hi <= hi')%nat -> between lo hi st st' -> between lo' hi' st st'.
Proof.
  intros Hlo Hhi (evs & He & Ho & Hb). exists evs. repeat split; [assumption..|].
  eapply Forall_impl; [eassumption|]. simpl. lia.
Qed.

#[local] Instance between_preorder (n : nat) : PreOrder (between n n).
Proof.
  split.
  - intros st. apply between_refl.
  - intros st1 st2 st3. apply between_trans. lia.
Qed.

Lemma between_bind {A B} (lo mid hi : nat) (m : M A) (k : A -> M B) :
  (lo <= mid <= hi)%nat ->
  preserves (between lo mid) m ->
  (forall a, preserves (between mid hi) (k a)) ->
  preserves (between lo hi) (bind m k).
Proof.
  intros Hmid Hm Hk st. unfold bind. specialize (Hm st).
  destruct (m st) as [[a|e] st1]; simpl in *.
  - eapply between_trans; [exact Hmid | exact Hm | apply Hk].
  - eapply between_weaken; [| |exact Hm]; lia.
Qed.

Lemma preserves_between_weaken {A} (lo hi lo' hi' : nat) (m : M A) :
  (lo' <= lo)%nat -> (hi <= hi')%nat ->
  preserves (between lo hi) m -> preserves (between lo' hi') m.
Proof.
  intros Hlo Hhi Hm st. eapply between_weaken; [exact Hlo | exact Hhi | apply Hm].
Qed.

Lemma between_emit (lo hi n : nat) (e : event) :
  phase e = Some n -> (lo <= n <= hi)%nat -> preserves (between lo hi) (emit e).
Proof.
  intros He Hn st. exists [e]. destruct st as [[] a]. simpl.
  unfold in_order, phases. simpl. rewrite He. simpl.
  repeat split; repeat constructor; lia.
Qed.

Lemma between_emit_none (lo hi : nat) (e : event) :
  phase e = None -> preserves (between lo hi) (emit e).
Proof.
  intros He st. exists [e]. destruct st as [[] a]. simpl.
  unfold in_order, phases. simpl. rewrite He. simpl.
  repeat split; constructor.
Qed.

Lemma between_modify (lo hi : nat) (f : state -> state) :
  (forall st, events (proc (f st)) = events (proc st)) ->
  preserves (between lo hi) (modify f).
Proof.
  intros Hf st. exists []. simpl. rewrite Hf, app_nil_r.
  repeat split; constructor.
Qed.

Ltac between_leaf :=
  first
    [ apply between_emit_none; reflexivity
    | eapply between_emit; [reflexivity | lia]
    | apply between_modify; intros [[] []]; reflexivity ].

(** The events of [_configure_logging] all belong to step 2. *)
Lemma _configure_logging_between (X : Externals) :
  preserves (between 2 2) (_configure_logging X).
Proof.
  unfold _configure_logging, new_FileHandler, root_addHandler, root_removeHandler,
    root_setLevel.
  preserves_tac; between_leaf.
Qed.

Lemma between_try_except {A} (lo mid hi : nat) (m : M A) (classes : exn -> bool)
    (handler : exn -> M A) :
  (lo <= mid <= hi)%nat ->
  preserves (between lo mid) m ->
  (forall e, preserves (between mid hi) (handler e)) ->
  preserves (between lo hi) (try_except m classes handler).
Proof.
  intros Hmid Hm Hh st. unfold try_except. specialize (Hm st).
  destruct (m st) as [[a|e] st1]; simpl in *.
  - eapply between_weaken; [| |exact Hm]; lia.
  - destruct (classes e).
    + eapply between_trans; [exact Hmid | exact Hm | apply Hh].
    + eapply between_weaken; [| |exact Hm]; lia.
Qed.

(** Split a sequence whose events belong to steps [lo] to [hi]: the part
    that stays within step [lo] goes first. *)
Ltac between_seq lo hi :=
  repeat first
    [ solve [ apply (preserves_between_weaken lo lo); [lia | lia | preserves_tac; between_leaf] ]
    | solve [ apply (preserves_between_weaken hi hi); [lia | lia | preserves_tac; between_leaf] ]
    | eapply (between_bind lo lo hi);
      [lia | solve [preserves_tac; between_leaf] | intros ?]
    | match goal with
      | |- preserves _ (let '(_, _) := ?x in _) => destruct x
      | |- preserves _ (match ?x with _ => _ end) => destruct x
      end
    | progress cbv zeta ].

(** The events of [setup] belong to steps 1 and 2, in this order. *)
Lemma setup_between (X : Externals) (options : gmap string value) :
  preserves (between 1 2) (setup X options).
Proof.
  unfold setup, get_instance, self_config_update.
  between_seq 1%nat 2%nat.
  all: eapply (between_bind 1 2 2); [lia | | intros ?].
  all: first
         [ apply (preserves_between_weaken 2 2); [lia | lia | apply _configure_logging_between]
         | preserves_tac; between_leaf ].
Qed.

(** The events of [session] belong to steps 3 and 4, in this order. *)
Lemma session_between : preserves (between 3 4) session.
Proof.
  unfold session, open_rt, LOG_critical, sys_exit.
  between_seq 3%nat 4%nat.
  all: eapply (between_bind 3 4 4); [lia | | intros ?; preserves_tac; between_leaf].
  all: unfold new_Session.
  all: eapply (between_bind 3 3 4); [lia | unfold fresh_id; preserves_tac; between_leaf | intros ?].
  all: eapply (between_bind 3 4 4); [lia | between_leaf | intros ?; preserves_tac].
Qed.

Lemma TopLevelCommand_run_between (X : Externals)
    (docopt : list string -> result (gmap string value))
    (dispatch : Session -> gmap string value -> result value) (argv : list string) :
  preserves (between 0 5) (TopLevelCommand_run X docopt dispatch argv).
Proof.
  unfold TopLevelCommand_run.
  eapply (between_bind 0 0 5); [lia | between_leaf | intros _].
  eapply (between_bind 0 0 5); [lia | preserves_tac | intros options].
  eapply (between_bind 0 2 5); [lia | | intros _].
  { apply (preserves_between_weaken 1 2); [lia | lia | apply setup_between]. }
  eapply (between_bind 2 4 5); [lia | | intros s].
  { apply (preserves_between_weaken 3 4); [lia | lia | apply session_between]. }
  eapply (between_bind 4 5 5); [lia | between_leaf | intros _; preserves_tac].
Qed.

Lemma run_between (TopLevelCommand_run : list string -> M value) (argv : list string) :
  preserves (between 0 5) (TopLevelCommand_run argv) ->
  preserves (between 0 5) (run TopLevelCommand_run argv).
Proof.
  intros Hcmd. unfold run, LOG_error, LOG_exception.
  eapply (between_try_except 0 5 5); [lia | exact Hcmd | intros exc].
  preserves_tac; between_leaf.
Qed.

(** When [_configure_logging] returns, it has attached the console
    handler. *)
Lemma _configure_logging_ok_events (X : Externals) (st st' : state) :
  _configure_logging X st = (Ok tt, st') ->
  exists console evs,
    events (proc st') = (events (proc st) ++ evs)%list /\
    EvAddHandler console ∈ evs.
Proof.
  intros Hrun. exec_configure_logging X st Hrun.
  all: rewrite <- !app_assoc; simpl.
  all: match goal with
       | |- context [EvAddHandler ?h :: EvSetLevel _ :: _] =>
           exists h; eexists; split; [reflexivity|]
       end.
  all: repeat first [ apply list_elem_of_here | apply list_elem_of_further ].
Qed.

(** When [setup] returns, it has obtained the configuration singleton and
    attached the console handler. *)
Lemma setup_ok_events (X : Externals) (options : gmap string value) (st st' : state) :
  setup X options st = (Ok tt, st') ->
  exists user_config console evs,
    events (proc st') = (events (proc st) ++ evs)%list /\
    EvGetInstance user_config ∈ evs /\
    EvAddHandler console ∈ evs.
Proof.
  intros Hrun. open_state st.
  unfold setup, get_instance, pop_default in Hrun. unfold_M.
  repeat (simpl in Hrun; rewrite ?lookup_delete_ne in Hrun by done;
          first
            [ match goal with
              | Heq : ?d !! ?k = _ |- _ => rewrite Heq in Hrun
              end
            | match type of Hrun with
              | context [Py.truthy ?x] => destruct (Py.truthy x) eqn:?
              | context [Py.gt0 ?x] => destruct (Py.gt0 x) eqn:?
              | context [match ?o with Some _ => _ | None => _ end] =>
                  destruct o eqn:?
              | context [_configure_logging X ?s] =>
                  destruct (_configure_logging X s) as [[[]|?] ?] eqn:Hlog
              end ];
          try discriminate Hrun).
  all: injection Hrun as <-.
  all: apply _configure_logging_ok_events in Hlog as (console & evs & Hev & Hin).
  all: simpl in Hev; simpl; rewrite Hev, <- !app_assoc; simpl.
  all: match goal with
       | |- context [EvGetInstance ?kw :: _] =>
           exists kw, console; eexists; split; [reflexivity|]
       end.
  all: split; [apply list_elem_of_here|].
  all: repeat apply list_elem_of_further; exact Hin.
Qed.

Lemma no_delegate (lo hi : nat) (evs : list event) (id : nat) :
  Forall (fun n => (lo <= n <= hi)%nat) (phases evs) -> (hi < 5)%nat ->
  EvDelegate id ∉ evs.
Proof.
  intros Hb Hhi Hin.
  assert (H5 : 5%nat ∈ phases evs).
  { apply list_elem_of_omap. exists (EvDelegate id). split; [assumption | reflexivity]. }
  rewrite Forall_forall in Hb. specialize (Hb _ H5). lia.
Qed.

Lemma app_assoc3 {A} (a b c d : list A) :
  (((a ++ b) ++ c) ++ d = a ++ (b ++ c ++ d))%list.
Proof. now rewrite <- !app_assoc. Qed.

(** What the spec-modelled top-level command leaves in the trace when it
    starts without a session: either it never delegates, or it has read
    the flags, set up, constructed the session and delegated, in this
    order. *)
Lemma TopLevelCommand_run_events (X : Externals)
    (docopt : list string -> result (gmap string value))
    (dispatch : Session -> gmap string value -> result value)
    (argv : list string) (st st' : state) (r : result value) :
  _session (self st) = None ->
  TopLevelCommand_run X docopt dispatch argv st = (r, st') ->
  exists evs,
    events (proc st') = (events (proc st) ++ evs)%list /\
    ((forall id, EvDelegate id ∉ evs) \/
     (exists options s user_config console evs_setup,
        docopt argv = Ok options /\
        r = dispatch s options /\
        evs = ([EvDocopt argv] ++ evs_setup
                 ++ [EvNewSession (s_id s) (s_hosts s); EvDelegate (s_id s)])%list /\
        EvGetInstance user_config ∈ evs_setup /\
        EvAddHandler console ∈ evs_setup /\
        (forall id, EvDelegate id ∉ evs_setup))).
Proof.
  intros Hs Hrun. unfold TopLevelCommand_run in Hrun.
  unfold bind, emit, modify, lift in Hrun. cbv beta iota in Hrun.
  set (st1 := with_proc (add_event (EvDocopt argv)) st) in *.
  assert (Hev1 : events (proc st1) = (events (proc st) ++ [EvDocopt argv])%list).
  { destruct st as [[] a]. reflexivity. }
  assert (Hs1 : _session (self st1) = None).
  { destruct st as [[] a]. exact Hs. }
  clearbody st1.
  destruct (docopt argv) as [options|e] eqn:Hdocopt.
  2: { injection Hrun as <- <-. exists [EvDocopt argv]. split; [assumption|]. left.
       intros id Hin. inversion Hin as [|? ? ? Hin']; inversion Hin'. }
  pose proof (setup_between X options st1) as (evs12 & Hev12 & _ & Hb12).
  pose proof (setup_objects_kept X options st1) as (_ & Hs2 & _).
  destruct (setup X options st1) as [[[]|e] st2] eqn:Hsetup; cbv beta iota in Hrun;
    simpl in Hev12, Hs2.
  2: { injection Hrun as <- <-. exists ([EvDocopt argv] ++ evs12)%list.
       rewrite Hev12, Hev1. split; [symmetry; apply app_assoc|]. left.
       intros id Hin. apply elem_of_app in Hin as [Hin|Hin].
       - inversion Hin as [|? ? ? Hin']; inversion Hin'.
       - revert Hin. eapply no_delegate; [exact Hb12 | lia]. }
  rewrite Hs1 in Hs2.
  pose proof (session_between st2) as (evs23 & Hev23 & _ & Hb23).
  destruct (session st2) as [[s|e] st3] eqn:Hsess; cbv beta iota in Hrun;
    simpl in Hev23.
  2: { injection Hrun as <- <-. exists ([EvDocopt argv] ++ evs12 ++ evs23)%list.
       rewrite Hev23, Hev12, Hev1. split; [apply app_assoc3|]. left.
       intros id Hin. apply elem_of_app in Hin as [Hin|Hin].
       - inversion Hin as [|? ? ? Hin']; inversion Hin'.
       - apply elem_of_app in Hin as [Hin|Hin]; revert Hin.
         + eapply no_delegate; [exact Hb12 | lia].
         + eapply no_delegate; [exact Hb23 | lia]. }
  destruct (session_constructs st2 st3 s Hs2 Hsess)
    as (? & ? & ? & ? & _ & _ & _ & _ & _ & _ & _ & _ & ->).
  destruct (setup_ok_events X options st1 st2 Hsetup)
    as (user_config & console & evs_setup & Hsetup_ev & Hget & Hadd).
  injection Hrun as <- <-.
  exists ([EvDocopt argv] ++ evs_setup
            ++ [EvNewSession (s_id s) (s_hosts s); EvDelegate (s_id s)])%list.
  split.
  - destruct st2 as [[] a2]. simpl in *. rewrite Hsetup_ev, Hev1.
    now rewrite <- !app_assoc.
  - right. exists options, s, user_config, console, evs_setup.
    repeat split; try assumption; try reflexivity.
    rewrite Hsetup_ev in Hev12. apply app_inv_head in Hev12. subst evs12.
    intros id. eapply no_delegate; [exact Hb12 | lia].
Qed.

(** C7: the events of one invocation come in the order of the steps (CLI
    flags, configuration, log handlers, hosts file, session, delegation);
    and when control is delegated to the subcommand, the flags were read,
    the configuration singleton obtained and the console handler attached
    by then, and the event just before the delegation is the construction
    of the session that is handed over. *)
Theorem C7_steps_of_an_invocation_are_ordered (X : Externals)
    (docopt : list string -> result (gmap string value))
    (dispatch : Session -> gmap string value -> result value)
    (argv : list string) (p : process) :
  let st' := snd (main (TopLevelCommand_run X docopt dispatch) argv p) in
  exists evs,
    events (proc st') = (events p ++ evs)%list /\
    in_order evs /\
    forall id,
      EvDelegate id ∈ evs ->
      exists hosts user_config console evs_setup evs_log,
        evs = ([EvDocopt argv] ++ evs_setup
                 ++ [EvNewSession id hosts; EvDelegate id] ++ evs_log)%list /\
        EvGetInstance user_config ∈ evs_setup /\
        EvAddHandler console ∈ evs_setup /\
        phases evs_log = [].
Proof.
  intros st'. subst st'. unfold main.
  set (st0 := {| proc := p; self := __init__ |}).
  pose proof (run_between _ argv (TopLevelCommand_run_between X docopt dispatch argv) st0)
    as (evs & Hev & Horder & _).
  exists evs. split; [exact Hev|]. split; [exact Horder|].
  intros id Hid.
  destruct (TopLevelCommand_run X docopt dispatch argv st0) as [r st1] eqn:Hrun.
  destruct (TopLevelCommand_run_events X docopt dispatch argv st0 st1 r eq_refl Hrun)
    as (evs1 & Hev1 & Hcases).
  assert (Hlog : exists evs_log,
             evs = (evs1 ++ evs_log)%list /\ phases evs_log = [] /\
             forall id, EvDelegate id ∉ evs_log).
  { unfold run, try_except in Hev. rewrite Hrun in Hev.
    destruct r as [v|exc]; simpl in Hev.
    - exists []. rewrite app_nil_r. split; [|split; [reflexivity | intros ? Hin; inversion Hin]].
      rewrite Hev1 in Hev. now apply app_inv_head in Hev.
    - destruct (Py.is_Exception exc); simpl in Hev.
      + unfold bind, gets, ret, LOG_error, LOG_exception, emit, modify in Hev.
        simpl in Hev.
        destruct (Py.is_LmiError exc || negb _)%bool; simpl in Hev;
          destruct st1 as [[] a1]; simpl in *; subst;
          rewrite <- app_assoc in Hev; apply app_inv_head in Hev; subst evs;
          eexists; (split; [reflexivity|]); (split; [reflexivity|]);
          intros ? Hin; inversion Hin as [|? ? ? Hin']; inversion Hin'.
      + exists []. rewrite app_nil_r.
        split; [|split; [reflexivity | intros ? Hin; inversion Hin]].
        rewrite Hev1 in Hev. now apply app_inv_head in Hev. }
  destruct Hlog as (evs_log & -> & Hphases & Hnolog).
  apply elem_of_app in Hid as [Hid|Hid]; [|exfalso; exact (Hnolog id Hid)].
  destruct Hcases as [Hnone|Hdone]; [exfalso; exact (Hnone id Hid)|].
  destruct Hdone as (options & s & user_config & console & evs_setup
                     & _ & _ & -> & Hget & Hadd & Hnosetup).
  assert (Hsame : id = s_id s).
  { apply elem_of_app in Hid as [Hid|Hid].
    - inversion Hid as [|? ? ? Hid']; inversion Hid'.
    - apply elem_of_app in Hid as [Hid|Hid]; [exfalso; exact (Hnosetup id Hid)|].
      inversion Hid as [|? ? ? Hid']; subst.
      inversion Hid' as [|? ? ? Hid'']; subst; [reflexivity | inversion Hid'']. }
  subst id.
  exists (s_hosts s), user_config, console, evs_setup, evs_log.
  rewrite <- !app_assoc. auto.
Qed.

(** C7 on the sample command line, whose run does delegate. *)
Lemma C7_witness :
  let st' := snd (main (TopLevelCommand_run sample_externals sample_docopt sample_dispatch)
                    ["list"] (imported sample_files)) in
  EvDelegate 0 ∈ events (proc st') /\
  exists evs,
    events (proc st') = (events (imported sample_files) ++ evs)%list /\
    in_order evs /\
    forall id,
      EvDelegate id ∈ evs ->
      exists hosts user_config console evs_setup evs_log,
        evs = ([EvDocopt ["list"]] ++ evs_setup
                 ++ [EvNewSession id hosts; EvDelegate id] ++ evs_log)%list /\
        EvGetInstance user_config ∈ evs_setup /\
        EvAddHandler console ∈ evs_setup /\
        phases evs_log = [].
Proof.
  split.
  - vm_compute. repeat first [ apply list_elem_of_here | apply list_elem_of_further ].
  - exact (C7_steps_of_an_invocation_are_ordered sample_externals sample_docopt
             sample_dispatch ["list"] (imported sample_files)).
Defined.

(** C9 after the manager was asked for and [setup] ran; the session is
    then constructed on request. *)
Lemma C9_witness :
  let st0 := new_MetaCommand (imported sample_files) in
  let st := after_calls sample_externals [GetCommandManager; Setup sample_options] st0 in
  (exists s, fst (session st) = Ok s /\ s_hosts s = ["gamma"]) /\
  (managers_created st <= managers_created st0 + 1)%nat /\
  (sessions_created st <= sessions_created st0 + 1)%nat /\
  (exists m,
     fst (command_manager sample_externals st) = Ok m /\
     commands m !! "help" = Some "Help" /\
     forall later,
       let st' := after_calls sample_externals later (snd (command_manager sample_externals st)) in
       command_manager sample_externals st' = (Ok m, st')) /\
  (forall s,
     fst (session st) = Ok s ->
     forall later,
       let st' := after_calls sample_externals later (snd (session st)) in
       session st' = (Ok s, st')).
Proof.
  split.
  - eexists. split; reflexivity.
  - exact (C9_lazy_objects_are_memoized sample_externals (imported sample_files)
             [GetCommandManager; Setup sample_options]).
Defined.

(** ** Hosts files: what [parse_hosts_file] gives back *)

Lemma append_assoc (a b c : string) : (a ++ b) ++ c = a ++ (b ++ c).
Proof.
  induction a as [|x a IH]; [reflexivity|].
  rewrite !append_cons. now rewrite IH.
Qed.

Lemma last_char_snoc (a : string) (c : ascii) :
  PyStr.last_char (a ++ String c EmptyString) = Some c.
Proof.
  induction a as [|x a IH]; [reflexivity|].
  rewrite append_cons. simpl. rewrite IH.
  destruct a; reflexivity.
Qed.

Lemma has_char_split (c : ascii) (s : string) :
  has_char c s = true -> exists a b, s = a ++ String c b.
Proof.
  induction s as [|d s IH]; simpl; [discriminate|].
  destruct (Ascii.eqb_spec d c) as [->|Hne]; simpl.
  - intros _. exists EmptyString, s. reflexivity.
  - intros Hs. destruct (IH Hs) as (a & b & ->).
    exists (String d a), b. reflexivity.
Qed.

(** In a line of [readlines] an LF can only be the last character. *)
Lemma is_line_LF_last (a b : string) :
  PyStr.is_line (a ++ String PyStr.LF b) = true -> b = EmptyString.
Proof.
  induction a as [|x a IH].
  - rewrite append_nil. destruct b as [|d b]; [reflexivity|].
    simpl. discriminate.
  - rewrite append_cons. intros Hline.
    destruct (a ++ String PyStr.LF b) as [|y t] eqn:Hrest.
    + destruct a; discriminate Hrest.
    + simpl in Hline. apply andb_true_iff in Hline as [_ Hline]. now apply IH.
Qed.

(** A string that neither starts nor ends with whitespace is left alone by
    [strip]. *)
Lemma lstrip_trimmed (s : string) :
  (forall c, PyStr.first_char s = Some c -> PyStr.isspace c = false) ->
  PyStr.lstrip s = s.
Proof.
  destruct s as [|c s]; [reflexivity|]. simpl. intros Hfirst.
  now rewrite (Hfirst c eq_refl).
Qed.

Lemma rstrip_trimmed (s : string) :
  (forall c, PyStr.last_char s = Some c -> PyStr.isspace c = false) ->
  PyStr.rstrip s = s.
Proof.
  induction s as [|c s IH]; [reflexivity|]. intros Hlast. simpl.
  destruct s as [|d s].
  - simpl. now rewrite (Hlast c eq_refl).
  - rewrite IH; [reflexivity|]. intros c' Hc'. apply Hlast. exact Hc'.
Qed.

Lemma strip_trimmed (s : string) : PyStr.trimmed s -> PyStr.strip s = s.
Proof.
  intros [Hfirst Hlast]. unfold PyStr.strip.
  rewrite (lstrip_trimmed s Hfirst). now apply rstrip_trimmed.
Qed.

Lemma rstrip_app_space (s w : string) :
  PyStr.all_space w = true -> PyStr.rstrip (s ++ w) = PyStr.rstrip s.
Proof.
  intros Hw. induction s as [|c s IH].
  - rewrite append_nil. simpl.
    induction w as [|d w IHw]; [reflexivity|].
    simpl in *. apply andb_true_iff in Hw as [Hd Hw]. rewrite (IHw Hw). now rewrite Hd.
  - rewrite append_cons. simpl. now rewrite IH.
Qed.

(** A well-formed hostname followed by the line end is stripped back to
    the hostname. *)
Lemma strip_hostname_line (h : string) :
  PyStr.trimmed h -> PyStr.strip (h ++ String PyStr.LF EmptyString) = h.
Proof.
  intros [Hfirst Hlast]. unfold PyStr.strip.
  destruct h as [|c h].
  - reflexivity.
  - rewrite append_cons. simpl. rewrite (Hfirst c eq_refl).
    change (String c (h ++ String PyStr.LF EmptyString))
      with (String c h ++ String PyStr.LF EmptyString).
    rewrite rstrip_app_space by reflexivity.
    now apply rstrip_trimmed.
Qed.

Lemma splitlines_keepends_line (h rest : string) :
  has_char PyStr.LF h = false ->
  PyStr.splitlines_keepends (h ++ String PyStr.LF rest)
  = (h ++ String PyStr.LF EmptyString) :: PyStr.splitlines_keepends rest.
Proof.
  induction h as [|c h IH]; intros Hh.
  - rewrite !append_nil. reflexivity.
  - simpl in Hh. apply orb_false_iff in Hh as [Hc Hh].
    rewrite !append_cons. cbn [PyStr.splitlines_keepends]. rewrite Hc.
    now rewrite (IH Hh).
Qed.

Lemma readlines_hosts_text (hosts : list string) :
  Forall plain_hostname hosts ->
  PyStr.splitlines_keepends (hosts_text hosts)
  = map (fun h => h ++ String PyStr.LF EmptyString) hosts.
Proof.
  induction 1 as [|h hosts [Hlf _] _ IH]; [reflexivity|].
  simpl. rewrite (splitlines_keepends_line _ _ Hlf). now rewrite IH.
Qed.

(** X1: reading back a hosts file written one hostname per line gives the
    hostnames, in order, provided no hostname contains an LF or has
    whitespace at either end (an empty hostname is allowed). *)
Theorem X1_parse_hosts_file_reads_back (name : string) (hosts : list string) :
  Forall plain_hostname hosts ->
  parse_hosts_file (VFile (File name (hosts_text hosts))) = Ok hosts.
Proof.
  intros Hhosts. rewrite parse_hosts_file_file. simpl.
  rewrite (readlines_hosts_text hosts Hhosts). f_equal.
  induction Hhosts as [|h hosts [_ Htrim] _ IH]; [reflexivity|].
  simpl. rewrite IH. now rewrite (strip_hostname_line h Htrim).
Qed.

(** X1 on three hostnames, the second of them empty. *)
Lemma X1_witness :
  parse_hosts_file
    (VFile (File "hosts" (hosts_text ["alpha"; EmptyString; "beta.example.org"])))
  = Ok ["alpha"; EmptyString; "beta.example.org"].
Proof.
  apply (X1_parse_hosts_file_reads_back "hosts" ["alpha"; EmptyString; "beta.example.org"]).
  repeat constructor; simpl; intros c [= <-]; reflexivity.
Defined.

(** X2: whatever the file holds, every hostname [parse_hosts_file] returns
    is free of LF and is a fixed point of [strip]: parsing never yields a
    name that spans lines or that stripping would still change. *)
Theorem X2_parsed_hostnames_are_plain (f : file) (hosts : list string) :
  parse_hosts_file (VFile f) = Ok hosts ->
  Forall (fun h => has_char PyStr.LF h = false /\ PyStr.strip h = h) hosts.
Proof.
  rewrite parse_hosts_file_file. intros [= <-].
  apply Forall_fmap.
  eapply Forall_impl; [apply splitlines_keepends_lines|].
  intros line Hline. simpl.
  destruct (strip_spec line) as (l & r & Heq & _ & _ & Htrim).
  split; [|now apply strip_trimmed].
  destruct (has_char PyStr.LF (PyStr.strip line)) eqn:Hlf; [exfalso | reflexivity].
  apply has_char_split in Hlf as (a & b & Hsplit).
  rewrite Hsplit in Heq. rewrite append_assoc, append_cons in Heq.
  rewrite <- append_assoc in Heq. rewrite Heq in Hline.
  apply is_line_LF_last in Hline.
  assert (Hb : b = EmptyString).
  { destruct b; [reflexivity | discriminate Hline]. }
  subst b. destruct Htrim as [_ Hlast]. rewrite Hsplit in Hlast.
  specialize (Hlast PyStr.LF (last_char_snoc a PyStr.LF)). discriminate Hlast.
Qed.

(** X2 on the sample hosts file. *)
Lemma X2_witness :
  Forall (fun h => has_char PyStr.LF h = false /\ PyStr.strip h = h)
    ["alpha"; EmptyString; "beta.example.org"].
Proof.
  apply (X2_parsed_hostnames_are_plain (File "hosts" hosts_data)). reflexivity.
Defined.

(** Whitespace at the end of a line does not change what [strip] gives. *)
Lemma strip_app_space (s w : string) :
  PyStr.all_space w = true -> PyStr.strip (s ++ w) = PyStr.strip s.
Proof.
  intros Hw. unfold PyStr.strip. induction s as [|c s IH].
  - rewrite append_nil. change (PyStr.rstrip (PyStr.lstrip w)) with (PyStr.strip w).
    now rewrite (strip_all_space w Hw).
  - rewrite append_cons. simpl. destruct (PyStr.isspace c); [exact IH|].
    change (String c (s ++ w)) with (String c s ++ w).
    now apply rstrip_app_space.
Qed.

(** Appending an LF to data that does not end in one completes the last
    line and adds none. *)
Lemma splitlines_keepends_final_LF (data : string) :
  data <> EmptyString ->
  PyStr.last_char data <> Some PyStr.LF ->
  exists init l,
    PyStr.splitlines_keepends data = (init ++ [l])%list /\
    PyStr.splitlines_keepends (data ++ String PyStr.LF EmptyString)
    = (init ++ [(l ++ String PyStr.LF EmptyString)%string])%list.
Proof.
  induction data as [|c rest IH]; [contradiction|]. intros _ Hlast.
  destruct (String.eqb_spec rest EmptyString) as [->|Hrest].
  - exists [], (String c EmptyString). simpl in *.
    destruct (Ascii.eqb_spec c PyStr.LF) as [->|Hc]; [contradiction|].
    split; reflexivity.
  - assert (Hlast' : PyStr.last_char rest <> Some PyStr.LF).
    { destruct rest; [contradiction | exact Hlast]. }
    destruct (IH Hrest Hlast') as (init & l & Hlines & Hlines').
    rewrite append_cons. cbn [PyStr.splitlines_keepends].
    rewrite Hlines, Hlines'.
    destruct (Ascii.eqb c PyStr.LF).
    + exists (String c EmptyString :: init), l. split; reflexivity.
    + destruct init as [|i init'].
      * exists [], (String c l). split; reflexivity.
      * exists (String c i :: init'), l. split; reflexivity.
Qed.

(** X3: the LF after the last hostname is optional: a hosts file that is
    not empty and does not end in LF parses to the same hostnames with an
    LF appended.  (An empty file gains an empty hostname, and so does a
    file that already ends in LF.) *)
Theorem X3_final_newline_is_optional (name data : string) :
  data <> EmptyString ->
  PyStr.last_char data <> Some PyStr.LF ->
  parse_hosts_file (VFile (File name (data ++ String PyStr.LF EmptyString)))
  = parse_hosts_file (VFile (File name data)).
Proof.
  intros Hne Hlast. rewrite !parse_hosts_file_file. simpl.
  destruct (splitlines_keepends_final_LF data Hne Hlast) as (init & l & -> & ->).
  rewrite !map_app. simpl. now rewrite strip_app_space.
Qed.

(** X3 on the sample hosts file, whose last line lacks the LF. *)
Lemma X3_witness :
  parse_hosts_file (VFile (File "hosts" (hosts_data ++ String PyStr.LF EmptyString)))
  = parse_hosts_file (VFile (File "hosts" hosts_data)).
Proof.
  apply (X3_final_newline_is_optional "hosts" hosts_data); vm_compute; discriminate.
Defined.

(** ** More on [session] *)

(** With a non-empty list of [--host] arguments and no hosts file the
    first access constructs the [Session] and stores it. *)
Lemma session_runs
    (st : state) (opts : gmap string value) (hosts : list string) (hf user : value) :
  _session (self st) = None ->
  _options (self st) = Some opts ->
  opts !! "--host" = Some (VList hosts) ->
  hosts <> [] ->
  opts !! "--hosts-file" = Some hf ->
  Py.truthy hf = false ->
  opts !! "--user" = Some user ->
  let s := {| s_id := next_id (proc st);
              s_hosts := hosts;
              s_credentials := if Py.truthy user
                               then Some (credentials_for user hosts)
                               else None |} in
  session st = (Ok s, session_stored s st).
Proof.
  intros Hs Ho Hhost Hne Hhf Htf Huser s. subst s.
  destruct hosts as [|h0 hosts0]; [contradiction|].
  open_state st. unfold session. unfold_M.
  destruct (Py.truthy user) eqn:Hu; sym_exec; reflexivity.
Qed.

(** X4: with a non-empty list of [--host] arguments and no hosts file, the
    first access to [session] returns a new [Session] for exactly these
    hosts, with credentials built from [--user], and stores it; the next
    access returns the same object and constructs nothing. *)
Theorem X4_session_from_host_arguments
    (st : state) (opts : gmap string value) (hosts : list string) (hf user : value) :
  _session (self st) = None ->
  _options (self st) = Some opts ->
  opts !! "--host" = Some (VList hosts) ->
  hosts <> [] ->
  opts !! "--hosts-file" = Some hf ->
  Py.truthy hf = false ->
  opts !! "--user" = Some user ->
  let s := {| s_id := next_id (proc st);
              s_hosts := hosts;
              s_credentials := if Py.truthy user
                               then Some (credentials_for user hosts)
                               else None |} in
  let st' := session_stored s st in
  session st = (Ok s, st') /\
  sessions_created st' = S (sessions_created st) /\
  session st' = (Ok s, st').
Proof.
  intros Hs Ho Hhost Hne Hhf Htf Huser s st'.
  split; [now apply (session_runs st opts hosts hf user)|].
  destruct (session_stored_spec st s) as (Hstored & _ & Hcount & _).
  split; [exact Hcount|].
  now apply session_memoized.
Qed.

(** X4 on the sample command line. *)
Lemma X4_witness :
  let st := configured sample_options in
  let s := {| s_id := next_id (proc st);
              s_hosts := ["gamma"];
              s_credentials := Some (credentials_for (VStr "root") ["gamma"]) |} in
  let st' := session_stored s st in
  session st = (Ok s, st') /\
  sessions_created st' = S (sessions_created st) /\
  session st' = (Ok s, st').
Proof.
  intros st.
  apply (X4_session_from_host_arguments st sample_options ["gamma"] VNone (VStr "root"));
    try reflexivity.
  discriminate.
Defined.

(** X5: a [Session] is never constructed for an empty list of hosts: when
    the first access returns and [--host] holds a list, the list is not
    empty, no hosts file was given, and the session has exactly the hosts
    of the list. *)
Theorem X5_constructed_session_has_hosts
    (st st' : state) (s : Session) (opts : gmap string value) (hosts : list string) :
  _session (self st) = None ->
  _options (self st) = Some opts ->
  opts !! "--host" = Some (VList hosts) ->
  session st = (Ok s, st') ->
  hosts <> [] /\
  s_hosts s = hosts /\
  (exists hf, opts !! "--hosts-file" = Some hf /\ Py.truthy hf = false) /\
  _session (self st') = Some s.
Proof.
  intros Hs Ho Hhost Hrun.
  destruct (session_constructs st st' s Hs Hrun)
    as (opts' & host & hf & user & Ho' & Hhost' & Hhf & _ & Htf & Hiter & _ & _ & Hst').
  rewrite Ho in Ho'. injection Ho' as <-.
  rewrite Hhost in Hhost'. injection Hhost' as <-.
  simpl in Hiter. injection Hiter as Hiter.
  split; [|split; [now symmetry | split; [now exists hf|]]].
  - intros ->. open_state st. unfold session in Hrun. unfold_M.
    simpl in Hrun. rewrite Hhost in Hrun. simpl in Hrun.
    rewrite Hhf in Hrun. simpl in Hrun. rewrite Htf in Hrun. discriminate Hrun.
  - subst st'. now destruct (session_stored_spec st s) as (Hstored & _).
Qed.

(** X5 on the sample command line. *)
Lemma X5_witness :
  let st := configured sample_options in
  let s := {| s_id := 0%nat;
              s_hosts := ["gamma"];
              s_credentials := Some (credentials_for (VStr "root") ["gamma"]) |} in
  ["gamma"] <> [] /\
  s_hosts s = ["gamma"] /\
  (exists hf, sample_options !! "--hosts-file" = Some hf /\ Py.truthy hf = false) /\
  _session (self (session_stored s st)) = Some s.
Proof.
  intros st s.
  apply (X5_constructed_session_has_hosts st (session_stored s st) s sample_options ["gamma"]);
    reflexivity.
Defined.

(** X6: before [setup] has stored the options, the first access to
    [session] raises [TypeError] (it subscripts [None]) and changes
    nothing: it neither logs nor exits. *)
Theorem X6_session_before_setup_raises_TypeError (st : state) :
  _session (self st) = None ->
  _options (self st) = None ->
  session st = (Raise (TypeError "'NoneType' object has no attribute '__getitem__'"), st).
Proof.
  intros Hs Ho. open_state st. reflexivity.
Qed.

(** X6 on a new [MetaCommand]. *)
Lemma X6_witness :
  session started
  = (Raise (TypeError "'NoneType' object has no attribute '__getitem__'"), started).
Proof.
  apply (X6_session_before_setup_raises_TypeError started); reflexivity.
Defined.

(** ** More on [setup] *)

(** Follow a run of [setup] in hypothesis [Hrun]; the logging setup is
    taken as a whole, with what it leaves alone. *)
Ltac exec_setup X Hrun :=
  unfold setup, get_instance, pop_default in Hrun; unfold_M;
  repeat (simpl in Hrun; rewrite ?lookup_delete_ne in Hrun by done;
          first
            [ match goal with
              | Heq : ?d !! ?k = _ |- _ => rewrite Heq in Hrun
              | Heq : Py.truthy ?v = _ |- _ => rewrite Heq in Hrun
              end
            | match type of Hrun with
              | context [Py.truthy ?x] => destruct (Py.truthy x) eqn:?
              | context [Py.gt0 ?x] => destruct (Py.gt0 x) eqn:?
              | context [match ?o with Some _ => _ | None => _ end] =>
                  destruct o eqn:?
              | context [_configure_logging X ?s] =>
                  pose proof (_configure_logging_logging_only X s) as Hframe;
                  destruct (_configure_logging X s) as [[[]|?] ?] eqn:Hlog
              end ];
          try discriminate Hrun).

(** What a returning [setup] was given and what it stored. *)
Lemma setup_returns (X : Externals) (options : gmap string value) (st st' : state) :
  setup X options st = (Ok tt, st') ->
  exists cf,
    options !! "--config-file" = Some cf /\
    is_Some (options !! "--quiet") /\
    is_Some (options !! "-v") /\
    _options (self st')
    = Some (delete "-v"
              (delete "--quiet"
                 (delete "--trace"
                    (if Py.truthy cf then delete "--config-file" options else options)))).
Proof.
  intros Hrun. open_state st. exec_setup X Hrun.
  all: injection Hrun as <-; simpl.
  all: eexists; split; [first [reflexivity | eassumption]|]; split; [eauto|]; split; [eauto|].
  all: repeat match goal with
              | H : Py.truthy _ = _ |- _ => rewrite H
              end.
  all: first
         [ reflexivity
         | rewrite (delete_id _ "--trace");
           [reflexivity | rewrite ?lookup_delete_ne by done; assumption] ].
Qed.

(** X7: [setup] returns only for a dictionary that has the keys
    [--config-file], [--quiet] and [-v]; it then stores every option other
    than [--config-file], [--trace], [--quiet] and [-v] unchanged, never
    stores [--trace], and stores [--config-file] only when it was not
    given. *)
Theorem X7_setup_stores_the_other_options
    (X : Externals) (options : gmap string value) (st st' : state) :
  setup X options st = (Ok tt, st') ->
  exists cf stored,
    options !! "--config-file" = Some cf /\
    is_Some (options !! "--quiet") /\
    is_Some (options !! "-v") /\
    _options (self st') = Some stored /\
    stored !! "--trace" = None /\
    stored !! "--config-file" = (if Py.truthy cf then None else Some cf) /\
    forall key,
      key <> "--config-file" -> key <> "--trace" -> key <> "--quiet" -> key <> "-v" ->
      stored !! key = options !! key.
Proof.
  intros Hrun.
  destruct (setup_returns X options st st' Hrun) as (cf & Hcf & Hquiet & Hv & Hstored).
  exists cf. eexists. repeat (split; [eassumption|]).
  split; [|split].
  - rewrite !lookup_delete_ne by done. apply lookup_delete_eq.
  - rewrite !lookup_delete_ne by done.
    destruct (Py.truthy cf); [apply lookup_delete_eq | exact Hcf].
  - intros key H1 H2 H3 H4. rewrite !lookup_delete_ne by congruence.
    destruct (Py.truthy cf); [now rewrite lookup_delete_ne by congruence | reflexivity].
Qed.

(** X7 on the sample options. *)
Lemma X7_witness :
  exists cf stored,
    sample_options !! "--config-file" = Some cf /\
    is_Some (sample_options !! "--quiet") /\
    is_Some (sample_options !! "-v") /\
    _options (self (snd (setup sample_externals sample_options started))) = Some stored /\
    stored !! "--trace" = None /\
    stored !! "--config-file" = (if Py.truthy cf then None else Some cf) /\
    forall key,
      key <> "--config-file" -> key <> "--trace" -> key <> "--quiet" -> key <> "-v" ->
      stored !! key = sample_options !! key.
Proof.
  apply (X7_setup_stores_the_other_options sample_externals sample_options started
           (snd (setup sample_externals sample_options started))).
  reflexivity.
Defined.

(** A [setup] that raises has stored no options and left the lazily built
    objects alone. *)
Lemma setup_raises (X : Externals) (options : gmap string value) (st st' : state) (e : exn) :
  setup X options st = (Raise e, st') ->
  _options (self st') = _options (self st) /\ _session (self st') = _session (self st).
Proof.
  intros Hrun. open_state st. exec_setup X Hrun.
  all: injection Hrun as <- <-; simpl.
  all: try (destruct Hframe as (Hself & _); simpl in Hself; rewrite Hself; simpl).
  all: split; reflexivity.
Qed.

(** X8: a [setup] that raises leaves [self._options] and the stored
    session as they were; on a [MetaCommand] that was never set up, the
    next access to [session] therefore raises [TypeError] and constructs
    nothing. *)
Theorem X8_failed_setup_stores_no_options
    (X : Externals) (options : gmap string value) (st st' : state) (e : exn) :
  setup X options st = (Raise e, st') ->
  _options (self st') = _options (self st) /\
  objects_kept st st' /\
  (_options (self st) = None ->
   _session (self st) = None ->
   session st'
   = (Raise (TypeError "'NoneType' object has no attribute '__getitem__'"), st')).
Proof.
  intros Hrun.
  destruct (setup_raises X options st st' e Hrun) as [Ho Hs].
  split; [exact Ho|]. split.
  - pose proof (setup_objects_kept X options st) as Hkept.
    now rewrite Hrun in Hkept.
  - intros Hnone Hsnone. rewrite Hnone in Ho. rewrite Hsnone in Hs.
    clear Hrun. open_state st'. reflexivity.
Qed.

(** X8 on options that lack [-v]. *)
Lemma X8_witness :
  let options := delete "-v" sample_options in
  let st' := snd (setup sample_externals options started) in
  _options (self st') = _options (self started) /\
  objects_kept started st' /\
  (_options (self started) = None ->
   _session (self started) = None ->
   session st'
   = (Raise (TypeError "'NoneType' object has no attribute '__getitem__'"), st')).
Proof.
  intros options st'.
  apply (X8_failed_setup_stores_no_options sample_externals options started st'
           (KeyError "-v")).
  reflexivity.
Defined.

(** X9: [setup] followed by the first access to [session]: the session is
    built from the [--host] and [--user] entries of the dictionary handed
    to [setup], whatever else [setup] removed from it. *)
Theorem X9_setup_then_session
    (X : Externals) (options : gmap string value) (st st' : state)
    (hosts : list string) (hf user : value) :
  setup X options st = (Ok tt, st') ->
  _session (self st) = None ->
  options !! "--host" = Some (VList hosts) ->
  hosts <> [] ->
  options !! "--hosts-file" = Some hf ->
  Py.truthy hf = false ->
  options !! "--user" = Some user ->
  let s := {| s_id := next_id (proc st');
              s_hosts := hosts;
              s_credentials := if Py.truthy user
                               then Some (credentials_for user hosts)
                               else None |} in
  session st' = (Ok s, session_stored s st').
Proof.
  intros Hrun Hs Hhost Hne Hhf Htf Huser.
  destruct (setup_returns X options st st' Hrun) as (cf & _ & _ & _ & Hstored).
  pose proof (setup_objects_kept X options st) as (_ & Hkept & _).
  rewrite Hrun in Hkept. simpl in Hkept. rewrite Hs in Hkept.
  eapply session_runs; try eassumption.
  all: rewrite !lookup_delete_ne by done.
  all: destruct (Py.truthy cf); rewrite ?lookup_delete_ne by done; assumption.
Qed.

(** X9 on the sample command line. *)
Lemma X9_witness :
  let st' := snd (setup sample_externals sample_options started) in
  let s := {| s_id := next_id (proc st');
              s_hosts := ["gamma"];
              s_credentials := Some (credentials_for (VStr "root") ["gamma"]) |} in
  session st' = (Ok s, session_stored s st').
Proof.
  intros st'.
  apply (X9_setup_then_session sample_externals sample_options started st'
           ["gamma"] VNone (VStr "root"));
    try reflexivity.
  discriminate.
Defined.

(** X10: a dictionary without [--config-file] makes [setup] raise
    [KeyError] before anything happened; one without [--quiet] raises
    [KeyError] once the configuration has been obtained and its [trace]
    set; with [--quiet] off, one without [-v] raises [KeyError] before
    logging is configured. *)
Theorem X10_setup_missing_key_raises_KeyError
    (X : Externals) (options : gmap string value) (st : state) :
  (options !! "--config-file" = None ->
   setup X options st = (Raise (KeyError "--config-file"), st))
  /\
  (is_Some (options !! "--config-file") ->
   options !! "--quiet" = None ->
   fst (setup X options st) = Raise (KeyError "--quiet") /\
   (exists c, config (self (snd (setup X options st))) = Some c /\
              trace c = default (VBool false) (options !! "--trace")) /\
   root_logger (proc (snd (setup X options st))) = root_logger (proc st))
  /\
  (forall quiet,
     is_Some (options !! "--config-file") ->
     options !! "--quiet" = Some quiet ->
     Py.truthy quiet = false ->
     options !! "-v" = None ->
     fst (setup X options st) = Raise (KeyError "-v") /\
     root_logger (proc (snd (setup X options st))) = root_logger (proc st)).
Proof.
  split; [|split].
  - intros Hcf. unfold setup, bind, getitem, raise. now rewrite Hcf.
  - intros [cf Hcf] Hquiet.
    destruct (setup X options st) as [r st'] eqn:Hrun. simpl.
    open_state st. exec_setup X Hrun.
    all: injection Hrun as <- <-; simpl; eauto.
  - intros quiet [cf Hcf] Hquiet Htq Hv.
    destruct (setup X options st) as [r st'] eqn:Hrun. simpl.
    open_state st. exec_setup X Hrun.
    all: injection Hrun as <- <-; simpl; eauto.
Qed.

(** X10 on the sample options with one key taken out. *)
Lemma X10_witness :
  setup sample_externals (delete "--config-file" sample_options) started
  = (Raise (KeyError "--config-file"), started)
  /\
  fst (setup sample_externals (delete "--quiet" sample_options) started)
  = Raise (KeyError "--quiet")
  /\
  fst (setup sample_externals (delete "-v" sample_options) started)
  = Raise (KeyError "-v").
Proof.
  split; [|split].
  - apply (proj1 (X10_setup_missing_key_raises_KeyError sample_externals
                    (delete "--config-file" sample_options) started)).
    reflexivity.
  - apply (proj1 (proj2 (X10_setup_missing_key_raises_KeyError sample_externals
                           (delete "--quiet" sample_options) started))).
    + now exists VNone.
    + reflexivity.
  - apply (proj2 (proj2 (X10_setup_missing_key_raises_KeyError sample_externals
                           (delete "-v" sample_options) started))
             (VBool false)).
    + now exists VNone.
    + reflexivity.
    + reflexivity.
    + reflexivity.
Defined.

(** ** More on [_configure_logging] *)

(** Follow a run of [_configure_logging] in hypothesis [Hrun], whatever
    its outcome. *)
Ltac run_configure_logging X Hrun :=
  unfold _configure_logging in Hrun;
  unfold self_config, new_FileHandler, root_addHandler, root_setLevel, emit, modify, gets,
    lift, try_except, bind, ret, raise in Hrun;
  simpl in Hrun;
  match type of Hrun with
  | context [match ?cfg with Some _ => _ | None => _ end] => destruct cfg as [c|]
  end;
  simpl in Hrun;
  try match type of Hrun with
      | context [logging.getattr ?name] =>
          destruct (logging.getattr name) as [ll|e0] eqn:Hll;
          [|rewrite (getattr_not_KeyError _ _ Hll) in Hrun]
      end;
  repeat (simpl in Hrun;
          match type of Hrun with
          | context [match get_safe ?c ?a ?b with _ => _ end] =>
              destruct (get_safe c a b) as [filename|] eqn:Hfile
          | context [String.eqb ?a ?b] => destruct (String.eqb_spec a b)
          | context [match ?m !! ?k with _ => _ end] => destruct (m !! k) as [[?|?]|] eqn:?
          | context [match dict_get ?a ?b ?d with _ => _ end] =>
              destruct (dict_get a b d) as [console_level|] eqn:Hconsole
          | context [match logging._checkLevel ?a with _ => _ end] =>
              destruct (logging._checkLevel a) eqn:?
          | context [for_each ?l root_removeHandler ?s] =>
              rewrite for_each_removeHandler in Hrun
          | context [if silent ?X ?c then _ else _] => destruct (silent X c) eqn:Hsilent
          end).

(** X11: a configured logging level that names no attribute of [logging]
    makes [_configure_logging] raise [AttributeError] at once: the handler
    for [KeyError] around the lookup does not apply, no default level is
    used, and nothing has been changed. *)
Theorem X11_unknown_level_name_escapes
    (X : Externals) (st : state) (c : Configuration) (e : exn) :
  config (self st) = Some c ->
  logging.getattr (PyStr.upper (logging_level c)) = Raise e ->
  _configure_logging X st = (Raise e, st) /\
  is_KeyError e = false /\
  e = AttributeError ("'module' object has no attribute '"
                        ++ PyStr.upper (logging_level c) ++ "'").
Proof.
  intros Hc Hll. split; [|split].
  - open_state st. unfold _configure_logging. unfold_M. simpl.
    rewrite Hll. now rewrite (getattr_not_KeyError _ _ Hll).
  - exact (getattr_not_KeyError _ _ Hll).
  - revert Hll. unfold logging.getattr.
    repeat match goal with
           | |- context [if ?b then _ else _] => destruct b; [discriminate|]
           end.
    now intros [= <-].
Qed.

(** X11 on a configuration whose level is [verbose]. *)
Lemma X11_witness :
  let c := {| user_config_file_path := None; trace := VBool false; verbosity := VInt 0;
              logging_level := "verbose"; items := ∅ |} in
  let e := AttributeError "'module' object has no attribute 'VERBOSE'" in
  _configure_logging sample_externals (ready c) = (Raise e, ready c) /\
  is_KeyError e = false /\
  e = AttributeError ("'module' object has no attribute '"
                        ++ PyStr.upper (logging_level c) ++ "'").
Proof.
  intros c e.
  apply (X11_unknown_level_name_escapes sample_externals (ready c) c e); reflexivity.
Defined.

(** X12: a [_configure_logging] that raises has removed no handler: the
    root logger has the handlers it had, followed by at most the two the
    call adds (none of them a [NullHandler]), its level is unchanged, and
    so is the [MetaCommand]. *)
Theorem X12_failed_configure_logging_removes_nothing
    (X : Externals) (st st' : state) (e : exn) :
  _configure_logging X st = (Raise e, st') ->
  self st' = self st /\
  logging.level (root_logger (proc st')) = logging.level (root_logger (proc st)) /\
  exists added,
    logging.handlers (root_logger (proc st'))
    = (logging.handlers (root_logger (proc st)) ++ added)%list /\
    (length added <= 2)%nat /\
    Forall (fun h => logging.is_NullHandler h = false) added.
Proof.
  intros Hrun. open_state st. run_configure_logging X Hrun.
  all: try discriminate Hrun.
  all: injection Hrun as <- <-; simpl.
  all: split; [reflexivity|]; split; [reflexivity|].
  all: rewrite <- ?app_assoc; simpl.
  all: first
         [ exists []; split; [now rewrite app_nil_r|]; split; [simpl; lia | constructor]
         | eexists; split; [reflexivity|]; split; [simpl; lia | repeat constructor] ].
Qed.

(** X12 on a configuration with a log file and an unhashable verbosity:
    the file handler has been added when the call raises. *)
Lemma X12_witness :
  let st := ready (set_verbosity (VList []) logging_to_file) in
  let st' := snd (_configure_logging sample_externals st) in
  self st' = self st /\
  logging.level (root_logger (proc st')) = logging.level (root_logger (proc st)) /\
  exists added,
    logging.handlers (root_logger (proc st'))
    = (logging.handlers (root_logger (proc st)) ++ added)%list /\
    (length added <= 2)%nat /\
    Forall (fun h => logging.is_NullHandler h = false) added.
Proof.
  intros st st'.
  apply (X12_failed_configure_logging_removes_nothing sample_externals st st'
           (TypeError "unhashable type: 'list'")).
  reflexivity.
Defined.

(** What a returning [_configure_logging] did, in terms of the
    configuration it read: the console handler is the last handler of the
    root logger, its level comes from the verbosity table with the default
    the code computes, and [self.stdout] is replaced exactly in silent
    mode. *)
Lemma _configure_logging_returns (X : Externals) (st st' : state) :
  _configure_logging X st = (Ok tt, st') ->
  exists (c : Configuration) (ll cl : logging.level_obj) (console : logging.Handler),
    config (self st) = Some c /\
    logging.getattr (PyStr.upper (logging_level c)) = Ok ll /\
    dict_get (console_levels X) (verbosity c)
      (match get_safe c "Log" "OutputFile" with
       | Some _ => logging.LInt logging.ERROR
       | None => ll
       end) = Ok cl /\
    logging._checkLevel cl = Ok (logging.h_level console) /\
    logging.h_class console = logging.StreamHandler (stderr (self st)) /\
    last (logging.handlers (root_logger (proc st'))) = Some console /\
    logging.LInt (logging.level (root_logger (proc st')))
    = logging.min ll (logging.LInt (logging.h_level console)) /\
    stdout (self st') = (if silent X c then logging.NullFile else stdout (self st)) /\
    exists added,
      logging.handlers (root_logger (proc st'))
      = (List.filter not_NullHandler (logging.handlers (root_logger (proc st)))
           ++ added ++ [console])%list /\
      Forall (fun h => logging.is_NullHandler h = false) added.
Proof.
  intros Hrun. open_state st. run_configure_logging X Hrun.
  all: try discriminate Hrun.
  all: injection Hrun as <-; simpl.
  all: rewrite removeHandler_fold; simpl.
  all: rewrite <- ?app_assoc, list_remove_null_handlers.
  all: match goal with
       | Ha : logging._checkLevel ?cl = Ok ?a,
         Ha0 : logging._checkLevel (logging.min ?l ?cl) = Ok ?a0 |- _ =>
           first
             [ destruct (root_level_is_min _ _ _ _ _ _ _ _ Hll Hconsole Ha Ha0)
                 as [Hmin _]
             | destruct (root_level_is_min _ _ _ false _ _ _ _ Hll Hconsole Ha Ha0)
                 as [Hmin _]
             | destruct (root_level_is_min _ _ _ true _ _ _ _ Hll Hconsole Ha Ha0)
                 as [Hmin _] ]
       end.
  all: match goal with
       | |- context [(_ ++ [?console])%list] => exists c, ll, console_level, console
       end.
  all: rewrite ?Hfile, ?Hsilent; simpl.
  all: rewrite last_app; simpl.
  all: repeat (split; [first [assumption | reflexivity]|]).
  all: first
         [ exists []; split; [reflexivity | constructor]
         | eexists [_]; split; [reflexivity | repeat constructor] ].
Qed.

(** X13: the level of the console handler follows the verbosity: a
    verbosity found in the table gets the level of the table (the entry of
    [OUTPUT_DEBUG] is always [DEBUG]); any other number gets [ERROR] when a
    log file is configured and the configured logging level otherwise.
    The root logger never filters more than the console handler does. *)
Theorem X13_console_level_follows_verbosity (X : Externals) (st st' : state) :
  _configure_logging X st = (Ok tt, st') ->
  exists (c : Configuration) (console : logging.Handler),
    config (self st) = Some c /\
    last (logging.handlers (root_logger (proc st'))) = Some console /\
    logging.level (root_logger (proc st')) <= logging.h_level console /\
    (forall v l, verbosity c = VInt v -> console_levels X !! v = Some l ->
                 logging.h_level console = l) /\
    (verbosity c = VInt (OUTPUT_DEBUG X) -> logging.h_level console = logging.DEBUG) /\
    (forall v, verbosity c = VInt v -> console_levels X !! v = None ->
               match get_safe c "Log" "OutputFile" with
               | Some _ => logging.h_level console = logging.ERROR
               | None => logging.getattr (PyStr.upper (logging_level c))
                         = Ok (logging.LInt (logging.h_level console))
               end).
Proof.
  intros Hrun.
  destruct (_configure_logging_returns X st st' Hrun)
    as (c & ll & cl & console & Hc & Hll & Hcl & Hlevel & _ & Hlast & Hmin & _).
  exists c, console. split; [exact Hc|]. split; [exact Hlast|].
  assert (Htable : forall v l, verbosity c = VInt v -> console_levels X !! v = Some l ->
                               logging.h_level console = l).
  { intros v l Hv Hl. rewrite Hv in Hcl. simpl in Hcl. rewrite Hl in Hcl.
    injection Hcl as <-. now injection Hlevel as <-. }
  split; [|split; [exact Htable | split]].
  - unfold logging.min, logging.lt in Hmin. destruct ll as [n|s].
    + destruct (Z.ltb_spec (logging.h_level console) n); injection Hmin as ->; lia.
    + injection Hmin as ->. lia.
  - intros Hv. apply (Htable _ _ Hv). apply lookup_insert_eq.
  - intros v Hv Hmiss. rewrite Hv in Hcl. simpl in Hcl. rewrite Hmiss in Hcl.
    destruct (get_safe c "Log" "OutputFile").
    + injection Hcl as <-. now injection Hlevel as <-.
    + injection Hcl as <-. destruct ll as [n|s].
      * now injection Hlevel as <-.
      * apply getattr_LStr in Hll. unfold logging._checkLevel in Hlevel.
        rewrite Hll in Hlevel. discriminate Hlevel.
Qed.

(** X13 on a configuration without and one with a log file. *)
Lemma X13_witness :
  let check (st : state) :=
    let st' := snd (_configure_logging sample_externals st) in
    exists (c : Configuration) (console : logging.Handler),
      config (self st) = Some c /\
      last (logging.handlers (root_logger (proc st'))) = Some console /\
      logging.level (root_logger (proc st')) <= logging.h_level console /\
      (forall v l, verbosity c = VInt v -> console_levels sample_externals !! v = Some l ->
                   logging.h_level console = l) /\
      (verbosity c = VInt (OUTPUT_DEBUG sample_externals) ->
       logging.h_level console = logging.DEBUG) /\
      (forall v, verbosity c = VInt v -> console_levels sample_externals !! v = None ->
                 match get_safe c "Log" "OutputFile" with
                 | Some _ => logging.h_level console = logging.ERROR
                 | None => logging.getattr (PyStr.upper (logging_level c))
                           = Ok (logging.LInt (logging.h_level console))
                 end) in
  check (ready (sample_Configuration None)) /\
  check (ready (set_verbosity (VInt 7) logging_to_file)).
Proof.
  split.
  - apply (X13_console_level_follows_verbosity sample_externals
             (ready (sample_Configuration None))).
    reflexivity.
  - apply (X13_console_level_follows_verbosity sample_externals
             (ready (set_verbosity (VInt 7) logging_to_file))).
    reflexivity.
Defined.

(** ** [print_version] and [NullFile] *)

(** X14: after [_configure_logging] has run on a [MetaCommand] that writes
    to the standard output, [print_version] writes the version and a line
    end there, unless the configuration is silent: then [self.stdout] is
    a [NullFile] and nothing is written at all.  Nothing else of the
    [MetaCommand] has changed. *)
Theorem X14_print_version_is_silenced
    (X : Externals) (st st' : state) (version : string) :
  _configure_logging X st = (Ok tt, st') ->
  stdout (self st) = logging.sys_stdout ->
  exists c : Configuration,
    config (self st) = Some c /\
    stdout (self st') = (if silent X c then logging.NullFile else logging.sys_stdout) /\
    self st' = set_stdout (stdout (self st')) (self st) /\
    print_version version st'
    = (Ok (if silent X c then []
           else [(logging.sys_stdout, version ++ String PyStr.LF EmptyString)]),
       st').
Proof.
  intros Hrun Hout.
  destruct (_configure_logging_returns X st st' Hrun)
    as (c & _ & _ & _ & Hc & _ & _ & _ & _ & _ & _ & Hstdout & _).
  pose proof (_configure_logging_logging_only X st) as (Hself & _).
  rewrite Hrun in Hself. simpl in Hself.
  exists c. rewrite Hout in Hstdout.
  split; [exact Hc|]. split; [exact Hstdout|]. split; [exact Hself|].
  unfold print_version, bind, gets, lift. rewrite Hstdout.
  destruct (silent X c); reflexivity.
Qed.

(** X14 in silent mode and in normal mode. *)
Lemma X14_witness :
  let check (st : state) :=
    let st' := snd (_configure_logging sample_externals st) in
    exists c : Configuration,
      config (self st) = Some c /\
      stdout (self st')
      = (if silent sample_externals c then logging.NullFile else logging.sys_stdout) /\
      self st' = set_stdout (stdout (self st')) (self st) /\
      print_version "0.2.4" st'
      = (Ok (if silent sample_externals c then []
             else [(logging.sys_stdout, "0.2.4" ++ String PyStr.LF EmptyString)]),
         st') in
  check (ready (set_verbosity (VInt (-1)) (sample_Configuration None))) /\
  check (ready (sample_Configuration None)).
Proof.
  split.
  - apply (X14_print_version_is_silenced sample_externals
             (ready (set_verbosity (VInt (-1)) (sample_Configuration None)))); reflexivity.
  - apply (X14_print_version_is_silenced sample_externals
             (ready (sample_Configuration None))); reflexivity.
Defined.

(** X15: handlers accumulate.  When [_configure_logging] runs again, every
    handler the first run left on the root logger is still there, in
    order, and a further console handler is added after them: nothing
    recognises that logging is already configured. *)
Theorem X15_configure_logging_twice_adds_a_second_console
    (X : Externals) (st st1 st2 : state) :
  _configure_logging X st = (Ok tt, st1) ->
  _configure_logging X st1 = (Ok tt, st2) ->
  exists (console1 console2 : logging.Handler) (between_them : list logging.Handler),
    last (logging.handlers (root_logger (proc st1))) = Some console1 /\
    logging.h_class console1 = logging.StreamHandler (stderr (self st)) /\
    logging.h_class console2 = logging.StreamHandler (stderr (self st)) /\
    logging.handlers (root_logger (proc st2))
    = (logging.handlers (root_logger (proc st1)) ++ between_them ++ [console2])%list.
Proof.
  intros Hrun1 Hrun2.
  destruct (_configure_logging_returns X st st1 Hrun1)
    as (c1 & _ & _ & console1 & _ & _ & _ & _ & Hclass1 & Hlast1 & _ & _
        & added1 & Hafter1 & Hadded1).
  destruct (_configure_logging_returns X st1 st2 Hrun2)
    as (c2 & _ & _ & console2 & _ & _ & _ & _ & Hclass2 & _ & _ & _
        & added2 & Hafter2 & _).
  pose proof (_configure_logging_logging_only X st) as (Hself & _).
  rewrite Hrun1 in Hself. simpl in Hself.
  assert (Hstderr : stderr (self st1) = stderr (self st)) by now rewrite Hself.
  rewrite Hstderr in Hclass2.
  exists console1, console2, added2.
  split; [exact Hlast1|]. split; [exact Hclass1|]. split; [exact Hclass2|].
  rewrite Hafter2. f_equal.
  destruct (handlers_after_spec (logging.handlers (root_logger (proc st))) added1 console1)
    as [Hnull _]; [exact Hadded1 | | |].
  - unfold logging.is_NullHandler. now rewrite Hclass1.
  - unfold logging.is_FileHandler. now rewrite Hclass1.
  - simpl in Hnull. rewrite <- Hafter1 in Hnull.
    clear -Hnull. induction Hnull as [|h hs Hh _ IH]; [reflexivity|].
    simpl. unfold not_NullHandler at 1. rewrite Hh. simpl. now rewrite IH.
Qed.

(** X15 on two runs in a row. *)
Lemma X15_witness :
  let st := ready (sample_Configuration None) in
  let st1 := snd (_configure_logging sample_externals st) in
  let st2 := snd (_configure_logging sample_externals st1) in
  exists (console1 console2 : logging.Handler) (between_them : list logging.Handler),
    last (logging.handlers (root_logger (proc st1))) = Some console1 /\
    logging.h_class console1 = logging.StreamHandler (stderr (self st)) /\
    logging.h_class console2 = logging.StreamHandler (stderr (self st)) /\
    logging.handlers (root_logger (proc st2))
    = (logging.handlers (root_logger (proc st1)) ++ between_them ++ [console2])%list.
Proof.
  intros st st1 st2.
  apply (X15_configure_logging_twice_adds_a_second_console sample_externals st st1 st2);
    reflexivity.
Defined.

(** ** [setup] and the console level *)

(** The logging setup leaves the configuration object of the
    [MetaCommand] in place. *)
Lemma logging_only_config (st st' : state) :
  logging_only st st' -> config (self st') = config (self st).
Proof.
  intros (Hself & _). now rewrite Hself.
Qed.

(** X16: [setup] with [--quiet] leaves the console handler at level
    [ERROR], provided [OUTPUT_SILENT] is none of the other verbosity
    constants (of two equal keys of the table the later one stays). *)
Theorem X16_quiet_console_level_is_ERROR
    (X : Externals) (options : gmap string value) (st st' : state) (quiet : value) :
  setup X options st = (Ok tt, st') ->
  options !! "--quiet" = Some quiet ->
  Py.truthy quiet = true ->
  OUTPUT_SILENT X <> OUTPUT_WARNING X ->
  OUTPUT_SILENT X <> OUTPUT_INFO X ->
  OUTPUT_SILENT X <> OUTPUT_DEBUG X ->
  exists (c : Configuration) (console : logging.Handler),
    config (self st') = Some c /\
    verbosity c = VInt (OUTPUT_SILENT X) /\
    last (logging.handlers (root_logger (proc st'))) = Some console /\
    logging.h_level console = logging.ERROR /\
    logging.level (root_logger (proc st')) <= logging.ERROR.
Proof.
  intros Hrun Hquiet Htq Hw Hi Hd.
  assert (Htable : console_levels X !! OUTPUT_SILENT X = Some logging.ERROR).
  { unfold console_levels. rewrite !lookup_insert_ne by congruence. apply lookup_insert_eq. }
  open_state st. exec_setup X Hrun.
  all: injection Hrun as <-.
  all: apply logging_only_config in Hframe as Hself; simpl in Hself.
  all: apply _configure_logging_returns in Hlog
         as (cfg & ll & cl & console & Hc & Hll & Hcl & Hlevel & _ & Hlast & Hmin & _).
  all: simpl in Hc; injection Hc as <-; simpl in Hcl; rewrite Htable in Hcl.
  all: injection Hcl as <-; injection Hlevel as Hlevel.
  all: eexists _, console; simpl; rewrite Hself.
  all: split; [reflexivity|]; split; [reflexivity|]; split; [exact Hlast|].
  all: split; [now symmetry|].
  all: rewrite <- Hlevel in Hmin; unfold logging.min, logging.lt in Hmin.
  all: destruct ll as [n|name];
    [ destruct (Z.ltb_spec logging.ERROR n); injection Hmin as ->; lia
    | injection Hmin as ->; lia ].
Qed.

(** X16 on the sample options with [--quiet]. *)
Lemma X16_witness :
  let st' := snd (setup sample_externals (<["--quiet" := VBool true]> sample_options) started) in
  exists (c : Configuration) (console : logging.Handler),
    config (self st') = Some c /\
    verbosity c = VInt (OUTPUT_SILENT sample_externals) /\
    last (logging.handlers (root_logger (proc st'))) = Some console /\
    logging.h_level console = logging.ERROR /\
    logging.level (root_logger (proc st')) <= logging.ERROR.
Proof.
  intros st'.
  apply (X16_quiet_console_level_is_ERROR sample_externals
           (<["--quiet" := VBool true]> sample_options) started st' (VBool true));
    try reflexivity; discriminate.
Defined.

(** ** More on [run] *)

(** X17: [run] never lets an exception that derives from [Exception]
    escape: what it raises was raised by the top-level command, does not
    derive from [Exception], and [run] added nothing to it; and when [run]
    returns, either the command returned that value, or the value is 1 and
    exactly one [ERROR] record was logged on top of what the command had
    done. *)
Theorem X17_run_raises_only_what_is_not_an_Exception
    (TopLevelCommand_run : list string -> M value) (argv : list string) (st st' : state) :
  (forall e,
     run TopLevelCommand_run argv st = (Raise e, st') ->
     Py.is_Exception e = false /\ TopLevelCommand_run argv st = (Raise e, st'))
  /\
  (forall v,
     run TopLevelCommand_run argv st = (Ok v, st') ->
     TopLevelCommand_run argv st = (Ok v, st') \/
     (v = VInt 1 /\
      exists exc st1 msg exc_info,
        TopLevelCommand_run argv st = (Raise exc, st1) /\
        Py.is_Exception exc = true /\
        st' = with_proc (add_event (EvLog logging.ERROR msg exc_info)) st1)).
Proof.
  unfold run, try_except.
  destruct (TopLevelCommand_run argv st) as [[v0|exc] st1].
  - split; [discriminate|]. intros v Hrun. now left.
  - destruct (Py.is_Exception exc) eqn:Hexc.
    + unfold bind, gets, ret, LOG_error, LOG_exception, emit, modify.
      split.
      * intros e.
        destruct (Py.is_LmiError exc || negb (Py.truthy _))%bool; discriminate.
      * intros v Hrun. right.
        destruct (Py.is_LmiError exc || negb (Py.truthy _))%bool;
          injection Hrun as <- <-; (split; [reflexivity|]);
          eexists _, _, _, _; repeat split; first [reflexivity | exact Hexc].
    + split.
      * intros e [= <- <-]. auto.
      * discriminate.
Qed.

(** X17 on a command that exits and on one that fails with an
    [LmiError]. *)
Lemma X17_witness :
  (Py.is_Exception (SystemExit 1) = false /\
   exiting_command [] started = (Raise (SystemExit 1), snd (exiting_command [] started)))
  /\
  (failing_command [] started
   = (Ok (VInt 1), snd (run failing_command [] started)) \/
   (VInt 1 = VInt 1 /\
    exists exc st1 msg exc_info,
      failing_command [] started = (Raise exc, st1) /\
      Py.is_Exception exc = true /\
      snd (run failing_command [] started)
      = with_proc (add_event (EvLog logging.ERROR msg exc_info)) st1)).
Proof.
  split.
  - apply (proj1 (X17_run_raises_only_what_is_not_an_Exception exiting_command [] started
                    (snd (exiting_command [] started)))).
    reflexivity.
  - apply (proj2 (X17_run_raises_only_what_is_not_an_Exception failing_command [] started
                    (snd (run failing_command [] started)))).
    reflexivity.
Defined.
